(** * Turn-taking orchestrator and voice-activity detector

    A shallow embedding of [backend/vad.py], of the [InterviewTimer] of
    [backend/utils.py], of [backend/conversation.py], of
    [backend/text_generation.py] and of [backend/speech_recognition.py],
    with the properties of the design document stated over it, and
    further properties read off the code.

    Conventions of the embedding.
    - A Python object is a record; a method takes the object and returns
      the updated object.
    - [time.time()] is read from the environment: every call site takes
      the value it reads as an argument.  Instants and durations are exact
      rationals, in seconds.
    - The frame classifier [webrtcvad.Vad.is_speech], the language
      service and the synthesis service are outside the repository: what
      they answer is an input of the method that calls them, [None]
      standing for a raised exception.  The calls made to them are logged.
    - A callback stored in an attribute is a name of type [Callable]; the
      method that calls it reports the call to its caller, which runs it.
      The one callback of this program, [_on_silence_detected], has no
      statement that raises; a callback that raises is not modelled.
    - [websocket.send_json] accepts every payload: a payload is emitted
      when the call is made.
    - asyncio runs one coroutine at a time and changes coroutine only at
      an [await] that really suspends.  A task created with
      [asyncio.create_task] waits in a queue of ready tasks; a step of the
      model is one uninterrupted piece of execution, and whether an
      awaited [send_json] suspends is an input of the step. *)

From Stdlib Require Import ZArith QArith List String Ascii Bool Arith Lia.
From Stdlib Require Import Strings.Byte.
From Stdlib Require Import Qround Lqa.
Import ListNotations.

Set Implicit Arguments.

Local Open Scope Z_scope.

(** Python's [bytes]. *)
Definition bytes := list byte.

(** [len(b)] as a Python integer. *)
Definition len (b : bytes) : Z := Z.of_nat (List.length b).

(* ===================================================================== *)
(** ** backend/vad.py *)
(* ===================================================================== *)

Module Vad.

Section Detector.

(** The callables that can be registered as silence callback. *)
Variable Callable : Type.

Record VoiceActivityDetector := mkVad {
  sample_rate : Z;
  frame_duration_ms : Z;
  silence_threshold_seconds : Q;
  frame_size : Z;
  is_speaking : bool;
  silence_start : option Q;
  speech_detected : bool;
  consecutive_silence : nat;
  consecutive_speech : nat;
  silence_padding_frames : nat;
  speech_padding_frames : nat;
  on_silence_detected : option Callable
}.

(** Assignments to one attribute. *)
Definition with_is_speaking (v : bool) (self : VoiceActivityDetector) :=
  mkVad (sample_rate self) (frame_duration_ms self)
        (silence_threshold_seconds self) (frame_size self)
        v (silence_start self) (speech_detected self)
        (consecutive_silence self) (consecutive_speech self)
        (silence_padding_frames self) (speech_padding_frames self)
        (on_silence_detected self).

Definition with_silence_start (v : option Q) (self : VoiceActivityDetector) :=
  mkVad (sample_rate self) (frame_duration_ms self)
        (silence_threshold_seconds self) (frame_size self)
        (is_speaking self) v (speech_detected self)
        (consecutive_silence self) (consecutive_speech self)
        (silence_padding_frames self) (speech_padding_frames self)
        (on_silence_detected self).

Definition with_speech_detected (v : bool) (self : VoiceActivityDetector) :=
  mkVad (sample_rate self) (frame_duration_ms self)
        (silence_threshold_seconds self) (frame_size self)
        (is_speaking self) (silence_start self) v
        (consecutive_silence self) (consecutive_speech self)
        (silence_padding_frames self) (speech_padding_frames self)
        (on_silence_detected self).

Definition with_consecutive_silence (v : nat) (self : VoiceActivityDetector) :=
  mkVad (sample_rate self) (frame_duration_ms self)
        (silence_threshold_seconds self) (frame_size self)
        (is_speaking self) (silence_start self) (speech_detected self)
        v (consecutive_speech self)
        (silence_padding_frames self) (speech_padding_frames self)
        (on_silence_detected self).

Definition with_consecutive_speech (v : nat) (self : VoiceActivityDetector) :=
  mkVad (sample_rate self) (frame_duration_ms self)
        (silence_threshold_seconds self) (frame_size self)
        (is_speaking self) (silence_start self) (speech_detected self)
        (consecutive_silence self) v
        (silence_padding_frames self) (speech_padding_frames self)
        (on_silence_detected self).

(** [__init__].  [int(sample_rate * frame_duration_ms / 1000) * 2]: the
    quotient is truncated towards zero. *)
Definition init (sample_rate frame_duration_ms : Z)
    (silence_threshold_seconds : Q) : VoiceActivityDetector :=
  {| sample_rate := sample_rate;
     frame_duration_ms := frame_duration_ms;
     silence_threshold_seconds := silence_threshold_seconds;
     frame_size := Z.quot (sample_rate * frame_duration_ms) 1000 * 2;
     is_speaking := false;
     silence_start := None;
     speech_detected := false;
     consecutive_silence := 0%nat;
     consecutive_speech := 0%nat;
     silence_padding_frames := 3%nat;
     speech_padding_frames := 3%nat;
     on_silence_detected := None |}.

(** [reset]. *)
Definition reset (self : VoiceActivityDetector) : VoiceActivityDetector :=
  let self := with_is_speaking false self in
  let self := with_silence_start None self in
  let self := with_speech_detected false self in
  let self := with_consecutive_silence 0%nat self in
  with_consecutive_speech 0%nat self.

(** [set_silence_callback]. *)
Definition set_silence_callback (callback : Callable)
    (self : VoiceActivityDetector) : VoiceActivityDetector :=
  mkVad (sample_rate self) (frame_duration_ms self)
        (silence_threshold_seconds self) (frame_size self)
        (is_speaking self) (silence_start self) (speech_detected self)
        (consecutive_silence self) (consecutive_speech self)
        (silence_padding_frames self) (speech_padding_frames self)
        (Some callback).

(** What one call of [process_frame] reads from outside the object. *)
Record FrameEnv := mkFrameEnv {
  (** result of [self.vad.is_speech(frame, self.sample_rate)];
      [None] when it raises *)
  classified : option bool;
  (** [time.time()] in [self.silence_start = time.time()] *)
  clock_start : Q;
  (** [time.time()] in [silence_duration = time.time() - self.silence_start] *)
  clock_check : Q
}.

(** Result of [process_frame]: the object afterwards, the returned
    boolean, and the silence callback if [self.on_silence_detected()] was
    executed. *)
Record FrameResult := mkFrameResult {
  after : VoiceActivityDetector;
  returned : bool;
  called : option Callable
}.

Definition is_None {A : Type} (o : option A) : bool :=
  match o with None => true | Some _ => false end.

(** [process_frame]. *)
Definition process_frame (self : VoiceActivityDetector) (frame : bytes)
    (env : FrameEnv) : FrameResult :=
  if negb (len frame =? frame_size self) then
    mkFrameResult self false None
  else
    match classified env with
    | None => mkFrameResult self false None
    | Some true =>
        let self := with_consecutive_speech (S (consecutive_speech self)) self in
        let self := with_consecutive_silence 0%nat self in
        let self :=
          if (speech_padding_frames self <=? consecutive_speech self)%nat then
            let self := with_is_speaking true self in
            let self := with_speech_detected true self in
            with_silence_start None self
          else self in
        mkFrameResult self true None
    | Some false =>
        let self := with_consecutive_silence (S (consecutive_silence self)) self in
        let self := with_consecutive_speech 0%nat self in
        if negb (speech_detected self) then mkFrameResult self false None
        else
          let self :=
            if (consecutive_silence self =? silence_padding_frames self)%nat
               && is_None (silence_start self)
            then with_silence_start (Some (clock_start env)) self
            else self in
          match silence_start self with
          | Some started =>
              let silence_duration := (clock_check env - started)%Q in
              if Qle_bool (silence_threshold_seconds self) silence_duration then
                mkFrameResult (reset self) false (on_silence_detected self)
              else mkFrameResult self false None
          | None => mkFrameResult self false None
          end
    end.

(** Frames fed one after the other; the calls of the silence callback are
    counted. *)
Definition fired (r : FrameResult) : nat :=
  match called r with Some _ => 1%nat | None => 0%nat end.

Fixpoint feed (self : VoiceActivityDetector) (frames : list (bytes * FrameEnv))
    : VoiceActivityDetector * nat :=
  match frames with
  | [] => (self, 0%nat)
  | (frame, env) :: rest =>
      let r := process_frame self frame env in
      let '(self', n) := feed (after r) rest in
      (self', (fired r + n)%nat)
  end.

(** A frame of the right length that the classifier takes for speech,
    respectively for silence. *)
Definition speech_frame (self : VoiceActivityDetector) (frame : bytes)
    (env : FrameEnv) : bool :=
  (len frame =? frame_size self)
  && match classified env with Some true => true | _ => false end.

Definition silence_frame (self : VoiceActivityDetector) (frame : bytes)
    (env : FrameEnv) : bool :=
  (len frame =? frame_size self)
  && match classified env with Some false => true | _ => false end.

(** The confirmed-speech episodes that begin while the frames are fed:
    the frames at which [speech_detected] goes from false to true. *)
Fixpoint episodes (self : VoiceActivityDetector)
    (frames : list (bytes * FrameEnv)) : nat :=
  match frames with
  | [] => 0%nat
  | (frame, env) :: rest =>
      let r := process_frame self frame env in
      ((if negb (speech_detected self) && speech_detected (after r)
        then 1 else 0)
       + episodes (after r) rest)%nat
  end.

(** The calls a client can make on a detector. *)
Inductive Op :=
| op_process_frame (frame : bytes) (env : FrameEnv)
| op_reset
| op_set_silence_callback (callback : Callable).

Definition apply_op (self : VoiceActivityDetector) (o : Op) : VoiceActivityDetector :=
  match o with
  | op_process_frame frame env => after (process_frame self frame env)
  | op_reset => reset self
  | op_set_silence_callback callback => set_silence_callback callback self
  end.

(** The detector after a history of calls. *)
Definition apply_ops (self : VoiceActivityDetector) (ops : list Op) :
    VoiceActivityDetector :=
  fold_left apply_op ops self.

(** The attributes set at construction are never assigned again. *)
Definition same_settings (self self' : VoiceActivityDetector) : Prop :=
  sample_rate self' = sample_rate self
  /\ frame_duration_ms self' = frame_duration_ms self
  /\ silence_threshold_seconds self' = silence_threshold_seconds self
  /\ frame_size self' = frame_size self
  /\ silence_padding_frames self' = silence_padding_frames self
  /\ speech_padding_frames self' = speech_padding_frames self.

(** At most one of the two frame counters is not zero. *)
Definition counters_exclusive (self : VoiceActivityDetector) : Prop :=
  consecutive_speech self = 0%nat \/ consecutive_silence self = 0%nat.

(** The two flags go together, and a silence timer runs only in a
    confirmed episode. *)
Definition flags_agree (self : VoiceActivityDetector) : Prop :=
  is_speaking self = speech_detected self
  /\ (silence_start self <> None -> speech_detected self = true).

Definition b2n (b : bool) : nat := if b then 1%nat else 0%nat.

End Detector.

Arguments init Callable sample_rate frame_duration_ms silence_threshold_seconds : clear implicits.
Arguments op_reset {Callable}.
Arguments op_process_frame {Callable} frame env.

End Vad.

(* ===================================================================== *)
(** ** Python strings *)
(* ===================================================================== *)

Module Str.

Local Open Scope N_scope.

(** [str.isspace] on one character.  Characters are code points below
    256; among those Python counts as whitespace U+0009..U+000D,
    U+001C..U+0020, U+0085 and U+00A0. *)
Definition isspace (c : ascii) : bool :=
  let n := N_of_ascii c in
  ((9 <=? n) && (n <=? 13)) || ((28 <=? n) && (n <=? 32))
  || (n =? 133) || (n =? 160).

Fixpoint lstrip (s : string) : string :=
  match s with
  | EmptyString => EmptyString
  | String c rest => if isspace c then lstrip rest else s
  end.

Fixpoint rstrip (s : string) : string :=
  match s with
  | EmptyString => EmptyString
  | String c rest =>
      match rstrip rest with
      | EmptyString => if isspace c then EmptyString else String c EmptyString
      | kept => String c kept
      end
  end.

(** [s.strip()]. *)
Definition strip (s : string) : string := rstrip (lstrip s).

(** Truth value of a string: non-empty. *)
Definition truthy (s : string) : bool :=
  match s with EmptyString => false | String _ _ => true end.

(** Whether a string begins, respectively ends, with whitespace. *)
Definition first_is_space (s : string) : bool :=
  match s with
  | EmptyString => false
  | String c _ => isspace c
  end.

Fixpoint last_is_space (s : string) : bool :=
  match s with
  | EmptyString => false
  | String c EmptyString => isspace c
  | String _ rest => last_is_space rest
  end.

End Str.

(* ===================================================================== *)
(** ** config/config.py *)
(* ===================================================================== *)

Module Config.

Definition INTERVIEW_DURATION_MINUTES : Z := 10.
Definition SILENCE_THRESHOLD_SECONDS : Q := 1.
Definition SAMPLE_RATE : Z := 16000.
Definition FRAME_DURATION_MS : Z := 30.

End Config.

(* ===================================================================== *)
(** ** backend/utils.py *)
(* ===================================================================== *)

Module Utils.

(** The text produced by [base64.b64encode(audio_bytes).decode('utf-8')],
    kept symbolic: the encoding is injective. *)
Inductive base64 := encode_audio_to_base64 (audio_bytes : bytes).

Record InterviewTimer := mkTimer {
  duration_seconds : Z;
  start_time : option Q
}.

Definition init (duration_minutes : Z) : InterviewTimer :=
  {| duration_seconds := duration_minutes * 60; start_time := None |}.

(** [start], reading [now] from the clock. *)
Definition start (now : Q) (self : InterviewTimer) : InterviewTimer :=
  {| duration_seconds := duration_seconds self; start_time := Some now |}.

(** [is_expired], reading [now] from the clock. *)
Definition is_expired (now : Q) (self : InterviewTimer) : bool :=
  match start_time self with
  | None => false
  | Some started =>
      let elapsed := (now - started)%Q in
      Qle_bool (inject_Z (duration_seconds self)) elapsed
  end.

(** [int(x)]: the fraction is cut off, towards zero. *)
Definition int (x : Q) : Z := Z.quot (Qnum x) (Zpos (Qden x)).

(** [max(0, x)]. *)
Definition max0 (x : Q) : Q := if Qle_bool x 0 then 0%Q else x.

(** [remaining_seconds], reading [now] from the clock. *)
Definition remaining_seconds (now : Q) (self : InterviewTimer) : Z :=
  match start_time self with
  | None => duration_seconds self
  | Some started =>
      let elapsed := (now - started)%Q in
      let remaining := max0 (inject_Z (duration_seconds self) - elapsed)%Q in
      int remaining
  end.

End Utils.

(* ===================================================================== *)
(** ** backend/conversation.py *)
(* ===================================================================== *)

Module Conversation.

Import Vad.

(** The one method registered with the detector,
    [self.vad.set_silence_callback(self._on_silence_detected)]. *)
Inductive BoundMethod := on_silence_detected_method.

Inductive Role := interviewer | candidate.

(** An entry of [conversation_history]. *)
Record Turn := mkTurn { role_of : Role; text_of : string }.

(** What goes to [websocket.send_json]. *)
Inductive Payload :=
| ai_response (text : string) (audio : Utils.base64)
| stop_ai_audio
| interview_end (text : string) (audio : Utils.base64).

(** Calls made to the collaborators, in the order they are made. *)
Inductive Call :=
| ai_start_interview (candidate_name role : string)
| ai_generate_response (user_transcript : string) (history : list Turn)
| ai_generate_closing (candidate_name : string)
| synthesize (text : string)
| recognizer_start_streaming
| recognizer_send_audio (audio_data : bytes)
| recognizer_close.

(** The attributes of a [ConversationManager].  [websocket] is [None]
    (false) or the connection handed to [start_interview] (true);
    [resume_data], which is only passed on to the language service, is
    left out. *)
Record ConversationManager := mkManager {
  candidate_name : string;
  role : string;
  vad : VoiceActivityDetector BoundMethod;
  conversation_history : list Turn;
  current_user_speech : string;
  is_ai_speaking : bool;
  interview_active : bool;
  timer : Utils.InterviewTimer;
  response_in_progress : bool;
  websocket : bool;
  audio_buffer : bytes
}.

Definition with_vad v (m : ConversationManager) :=
  mkManager (candidate_name m) (role m) v (conversation_history m)
    (current_user_speech m) (is_ai_speaking m) (interview_active m)
    (timer m) (response_in_progress m) (websocket m) (audio_buffer m).

Definition with_conversation_history v (m : ConversationManager) :=
  mkManager (candidate_name m) (role m) (vad m) v
    (current_user_speech m) (is_ai_speaking m) (interview_active m)
    (timer m) (response_in_progress m) (websocket m) (audio_buffer m).

Definition with_current_user_speech v (m : ConversationManager) :=
  mkManager (candidate_name m) (role m) (vad m) (conversation_history m)
    v (is_ai_speaking m) (interview_active m)
    (timer m) (response_in_progress m) (websocket m) (audio_buffer m).

Definition with_is_ai_speaking v (m : ConversationManager) :=
  mkManager (candidate_name m) (role m) (vad m) (conversation_history m)
    (current_user_speech m) v (interview_active m)
    (timer m) (response_in_progress m) (websocket m) (audio_buffer m).

Definition with_interview_active v (m : ConversationManager) :=
  mkManager (candidate_name m) (role m) (vad m) (conversation_history m)
    (current_user_speech m) (is_ai_speaking m) v
    (timer m) (response_in_progress m) (websocket m) (audio_buffer m).

Definition with_timer v (m : ConversationManager) :=
  mkManager (candidate_name m) (role m) (vad m) (conversation_history m)
    (current_user_speech m) (is_ai_speaking m) (interview_active m)
    v (response_in_progress m) (websocket m) (audio_buffer m).

Definition with_response_in_progress v (m : ConversationManager) :=
  mkManager (candidate_name m) (role m) (vad m) (conversation_history m)
    (current_user_speech m) (is_ai_speaking m) (interview_active m)
    (timer m) v (websocket m) (audio_buffer m).

Definition with_websocket v (m : ConversationManager) :=
  mkManager (candidate_name m) (role m) (vad m) (conversation_history m)
    (current_user_speech m) (is_ai_speaking m) (interview_active m)
    (timer m) (response_in_progress m) v (audio_buffer m).

Definition with_audio_buffer v (m : ConversationManager) :=
  mkManager (candidate_name m) (role m) (vad m) (conversation_history m)
    (current_user_speech m) (is_ai_speaking m) (interview_active m)
    (timer m) (response_in_progress m) (websocket m) v.

(** A coroutine of the manager that [asyncio.create_task] has wrapped,
    with the point where it stands.  Both coroutines have one [await]
    that can give control back to the event loop, the [send_json]. *)
Inductive Task :=
| generate_and_send_response_created
| generate_and_send_response_sending
| handle_interruption_created (first_transcript : string)
| handle_interruption_sending (first_transcript : string).

(** The manager with what surrounds it: the event loop's tasks and the
    traffic to the client and to the collaborators. *)
Record World := mkWorld {
  self : ConversationManager;
  (** tasks ready to run, oldest first *)
  ready : list Task;
  (** tasks waiting for their [send_json] to finish *)
  waiting : list Task;
  (** payloads given to [websocket.send_json], oldest first *)
  sent : list Payload;
  (** calls made to the collaborators, oldest first *)
  calls : list Call
}.

Definition update (f : ConversationManager -> ConversationManager) (w : World) :=
  mkWorld (f (self w)) (ready w) (waiting w) (sent w) (calls w).

(** [asyncio.create_task]. *)
Definition create_task (t : Task) (w : World) :=
  mkWorld (self w) (ready w ++ [t]) (waiting w) (sent w) (calls w).

(** A task stops at its [await] until the send has finished. *)
Definition suspend (t : Task) (w : World) :=
  mkWorld (self w) (ready w) (waiting w ++ [t]) (sent w) (calls w).

(** [await self.websocket.send_json(p)]. *)
Definition send_json (p : Payload) (w : World) :=
  mkWorld (self w) (ready w) (waiting w) (sent w ++ [p]) (calls w).

Definition call (c : Call) (w : World) :=
  mkWorld (self w) (ready w) (waiting w) (sent w) (calls w ++ [c]).

(** How a coroutine called from the websocket loop ends.  [Diverge]: it
    never returns. *)
Inductive Result :=
| Return (w : World)
| Raise (w : World)
| Diverge.

(** [__init__], with the settings of [config]. *)
Definition init (candidate_name role : string) : ConversationManager :=
  {| candidate_name := candidate_name;
     role := role;
     vad := set_silence_callback on_silence_detected_method
              (Vad.init BoundMethod Config.SAMPLE_RATE Config.FRAME_DURATION_MS
                 Config.SILENCE_THRESHOLD_SECONDS);
     conversation_history := [];
     current_user_speech := "";
     is_ai_speaking := false;
     interview_active := false;
     timer := Utils.init Config.INTERVIEW_DURATION_MINUTES;
     response_in_progress := false;
     websocket := false;
     audio_buffer := [] |}.

Definition boot (candidate_name role : string) : World :=
  mkWorld (init candidate_name role) [] [] [] [].

(** What [start_interview] gets from outside: the clock, the greeting
    ([None]: the language service raised), its audio ([None]: synthesis
    raised), and whether the recognition stream could be opened. *)
Record StartEnv := mkStartEnv {
  start_now : Q;
  greeting_text : option string;
  greeting_audio : option bytes;
  stream_opened : bool
}.

(** [start_interview]; with the result comes the returned payload. *)
Definition start_interview (env : StartEnv) (w : World) : Result * option Payload :=
  let w := update (with_websocket true) w in
  let w := update (with_interview_active true) w in
  let w := update (fun m => with_timer (Utils.start (start_now env) (timer m)) m) w in
  let w := call (ai_start_interview (candidate_name (self w)) (role (self w))) w in
  match greeting_text env with
  | None => (Raise w, None)
  | Some greeting_text =>
      let w := call (synthesize greeting_text) w in
      match greeting_audio env with
      | None => (Raise w, None)
      | Some greeting_audio =>
          let greeting_audio_base64 := Utils.encode_audio_to_base64 greeting_audio in
          let w := update (fun m => with_conversation_history
                     (conversation_history m ++ [mkTurn interviewer greeting_text]) m) w in
          let w := call recognizer_start_streaming w in
          if stream_opened env then
            let w := update (with_is_ai_speaking true) w in
            (Return w, Some (ai_response greeting_text greeting_audio_base64))
          else (Raise w, None)
      end
  end.

(** [_on_silence_detected]. *)
Definition _on_silence_detected (w : World) : World :=
  if Str.truthy (Str.strip (current_user_speech (self w)))
     && negb (is_ai_speaking (self w))
     && negb (response_in_progress (self w))
  then create_task generate_and_send_response_created w
  else w.

(** [self.vad.process_frame(frame)]: the detector calls the registered
    method back before its [reset]; the method does not look at the
    detector, so it is run here on the result. *)
Definition vad_process_frame (frame : bytes) (env : FrameEnv) (w : World) : World :=
  let r := process_frame (vad (self w)) frame env in
  let w := update (with_vad (after r)) w in
  match called r with
  | Some on_silence_detected_method => _on_silence_detected w
  | None => w
  end.

(** Python's slice bounds: a negative index counts from the end, and
    both are clipped to the length. *)
Definition slice_index (k : Z) (b : bytes) : nat :=
  if k <? 0 then Z.to_nat (Z.max 0 (len b + k)) else Z.to_nat (Z.min k (len b)).

(** [b[:k]] and [b[k:]]. *)
Definition slice_to (k : Z) (b : bytes) : bytes := firstn (slice_index k b) b.
Definition slice_from (k : Z) (b : bytes) : bytes := skipn (slice_index k b) b.

(** The [while] loop of [process_audio_chunk]: [seen] frames have been
    handed to the detector so far, and the environment of the next one is
    [frames seen].  [None]: the fuel is used up. *)
Fixpoint drain (fuel : nat) (frame_size : Z) (frames : nat -> FrameEnv)
    (seen : nat) (w : World) : option World :=
  if len (audio_buffer (self w)) >=? frame_size then
    match fuel with
    | O => None
    | S fuel =>
        let frame := slice_to frame_size (audio_buffer (self w)) in
        let w := update (fun m => with_audio_buffer
                   (slice_from frame_size (audio_buffer m)) m) w in
        let w := vad_process_frame frame (frames seen) w in
        drain fuel frame_size frames (S seen) w
    end
  else Some w.

(** What [_end_interview] gets from outside: the closing remark
    ([generate_closing] catches its own failures) and its audio ([None]:
    synthesis raised). *)
Record ClosingEnv := mkClosingEnv {
  closing_text : string;
  closing_audio : option bytes
}.

(** [_end_interview].  Its two awaits ([send_json], [close]) come after
    all its assignments. *)
Definition _end_interview (env : ClosingEnv) (w : World) : Result :=
  if negb (interview_active (self w)) then Return w
  else
    let w := update (with_interview_active false) w in
    let w := call (ai_generate_closing (candidate_name (self w))) w in
    let closing_text := closing_text env in
    let w := call (synthesize closing_text) w in
    match closing_audio env with
    | None => Raise w
    | Some closing_audio =>
        let closing_audio_base64 := Utils.encode_audio_to_base64 closing_audio in
        let w :=
          if websocket (self w)
          then send_json (interview_end closing_text closing_audio_base64) w
          else w in
        let w := call recognizer_close w in
        Return w
    end.

(** [stop]. *)
Definition stop (w : World) : World :=
  let w := update (with_interview_active false) w in
  call recognizer_close w.

(** What [process_audio_chunk] gets from outside. *)
Record ChunkEnv := mkChunkEnv {
  (** [time.time()] in [self.timer.is_expired()] *)
  chunk_now : Q;
  (** the environment of the n-th frame handed to the detector *)
  chunk_frames : nat -> FrameEnv;
  chunk_closing : ClosingEnv
}.

(** [process_audio_chunk].  [send_audio] has no await of its own, so the
    coroutine runs through without giving control back; the loop ends
    within [len(audio_buffer) + 1] tests when [frame_size] is positive
    and never otherwise. *)
Definition process_audio_chunk (audio_data : bytes) (env : ChunkEnv)
    (w : World) : Result :=
  if negb (interview_active (self w)) then Return w
  else if Utils.is_expired (chunk_now env) (timer (self w)) then
    _end_interview (chunk_closing env) w
  else
    let w := call (recognizer_send_audio audio_data) w in
    if is_ai_speaking (self w) then Return w
    else
      let w := update (fun m => with_audio_buffer (audio_buffer m ++ audio_data) m) w in
      let frame_size := frame_size (vad (self w)) in
      match drain (S (List.length (audio_buffer (self w)))) frame_size
              (chunk_frames env) 0%nat w with
      | Some w => Return w
      | None => Diverge
      end.

(** [handle_websocket_message], on [message.get("type")]. *)
Definition handle_websocket_message (msg_type : string) (w : World) : World :=
  if (msg_type =? "stop")%string then stop w
  else if (msg_type =? "ai_audio_completed")%string then
    update (with_is_ai_speaking false) w
  else w.

(** [_on_transcript_received]. *)
Definition _on_transcript_received (transcript : string) (w : World) : World :=
  if Str.truthy transcript then
    if is_ai_speaking (self w) then
      create_task (handle_interruption_created transcript) w
    else
      update (fun m => with_current_user_speech
                (current_user_speech m ++ " " ++ transcript) m) w
  else w.

(** [_handle_interruption] after its [await]. *)
Definition _handle_interruption_sent (first_transcript : string) (w : World) : World :=
  let w := update (fun m => with_vad (reset (vad m)) m) w in
  update (with_current_user_speech (Str.strip first_transcript)) w.

(** [_handle_interruption], from its start up to the point where it
    gives control back: at the [await] when [suspends], at its end
    otherwise. *)
Definition _handle_interruption (first_transcript : string) (suspends : bool)
    (w : World) : World :=
  let w := update (with_is_ai_speaking false) w in
  if websocket (self w) then
    let w := send_json stop_ai_audio w in
    if suspends then suspend (handle_interruption_sending first_transcript) w
    else _handle_interruption_sent first_transcript w
  else _handle_interruption_sent first_transcript w.

(** What a task gets from outside while it runs: the reply of the
    language service ([generate_response] catches its own failures), the
    synthesized audio ([None]: synthesis raised), and whether the
    [send_json] it awaits gives control back to the event loop before it
    finishes. *)
Record TaskEnv := mkTaskEnv {
  reply : string;
  speech : option bytes;
  send_suspends : bool
}.

(** The [finally] of [_generate_and_send_response]. *)
Definition _generate_and_send_response_finally (w : World) : World :=
  update (with_response_in_progress false) w.

(** [_generate_and_send_response], from its start up to the point where
    it gives control back. *)
Definition _generate_and_send_response (env : TaskEnv) (w : World) : World :=
  if response_in_progress (self w) then w
  else
    let w := update (with_response_in_progress true) w in
    let w := update (with_is_ai_speaking true) w in
    let user_text := Str.strip (current_user_speech (self w)) in
    let w := update (with_current_user_speech "") w in
    let w := update (fun m => with_vad (reset (vad m)) m) w in
    let w := update (fun m => with_conversation_history
               (conversation_history m ++ [mkTurn candidate user_text]) m) w in
    let w := call (ai_generate_response user_text (conversation_history (self w))) w in
    let ai_response_text := reply env in
    let w := update (fun m => with_conversation_history
               (conversation_history m ++ [mkTurn interviewer ai_response_text]) m) w in
    let w := call (synthesize ai_response_text) w in
    match speech env with
    | None => _generate_and_send_response_finally w
    | Some ai_audio =>
        let ai_audio_base64 := Utils.encode_audio_to_base64 ai_audio in
        if websocket (self w) then
          let w := send_json (ai_response ai_response_text ai_audio_base64) w in
          if send_suspends env then suspend generate_and_send_response_sending w
          else _generate_and_send_response_finally w
        else _generate_and_send_response_finally w
    end.

(** One turn of a task on the event loop. *)
Definition run_task (t : Task) (env : TaskEnv) (w : World) : World :=
  match t with
  | generate_and_send_response_created => _generate_and_send_response env w
  | generate_and_send_response_sending => _generate_and_send_response_finally w
  | handle_interruption_created first_transcript =>
      _handle_interruption first_transcript (send_suspends env) w
  | handle_interruption_sending first_transcript =>
      _handle_interruption_sent first_transcript w
  end.

(** Taking the n-th element out of a list. *)
Fixpoint take_out {A : Type} (n : nat) (l : list A) : option (A * list A) :=
  match l, n with
  | [], _ => None
  | x :: rest, O => Some (x, rest)
  | x :: rest, S n =>
      match take_out n rest with
      | Some (y, rest') => Some (y, x :: rest')
      | None => None
      end
  end.

(** What happens to a session, one uninterrupted piece of execution at
    a time. *)
Inductive Event :=
| audio_chunk (audio_data : bytes) (env : ChunkEnv)
| websocket_message (msg_type : string)
| transcript_received (transcript : string)
| stop_called
| loop_runs_next (env : TaskEnv)
| send_finished (n : nat).

(** The event loop takes the oldest ready task and runs it. *)
Definition run_next (env : TaskEnv) (w : World) : World :=
  match ready w with
  | [] => w
  | t :: rest =>
      run_task t env (mkWorld (self w) rest (waiting w) (sent w) (calls w))
  end.

(** The send of the n-th waiting task has finished: the task is ready
    again. *)
Definition wake (n : nat) (w : World) : World :=
  match take_out n (waiting w) with
  | None => w
  | Some (t, rest) =>
      mkWorld (self w) (ready w ++ [t]) rest (sent w) (calls w)
  end.

Definition step (e : Event) (w : World) : Result :=
  match e with
  | audio_chunk audio_data env => process_audio_chunk audio_data env w
  | websocket_message msg_type => Return (handle_websocket_message msg_type w)
  | transcript_received transcript => Return (_on_transcript_received transcript w)
  | stop_called => Return (stop w)
  | loop_runs_next env => Return (run_next env w)
  | send_finished n => Return (wake n w)
  end.

(** A history of events; it ends with the first coroutine that raises
    or does not return. *)
Fixpoint steps (es : list Event) (w : World) : Result :=
  match es with
  | [] => Return w
  | e :: rest =>
      match step e w with
      | Return w' => steps rest w'
      | other => other
      end
  end.

(** The events of a sequence of [process_audio_chunk] calls. *)
(** The events of a sequence of [process_audio_chunk] calls. *)
Definition audio_chunks (chunks : list (bytes * ChunkEnv)) : list Event :=
  map (fun c => audio_chunk (fst c) (snd c)) chunks.

(** Counting the calls of [generate_response] and the [ai_response]
    payloads. *)
Definition is_generate_response (c : Call) : bool :=
  match c with ai_generate_response _ _ => true | _ => false end.

Definition is_ai_response (p : Payload) : bool :=
  match p with ai_response _ _ => true | _ => false end.

Definition generate_response_calls (w : World) : nat :=
  List.length (filter is_generate_response (calls w)).

Definition ai_responses (w : World) : nat :=
  List.length (filter is_ai_response (sent w)).

(** A task that stands at the [send_json] of
    [_generate_and_send_response]. *)
Definition is_sending (t : Task) : bool :=
  match t with generate_and_send_response_sending => true | _ => false end.

(** The executions of [_generate_and_send_response] that are past the
    guard and have not reached their [finally]. *)
Definition in_flight (w : World) : nat :=
  List.length (filter is_sending (ready w ++ waiting w)).

(** The flag [response_in_progress] counts them. *)
Definition single_flight (w : World) : Prop :=
  in_flight w = b2n (response_in_progress (self w)).

(** What handing frames to the detector leaves alone. *)
Definition detector_only (w w' : World) : Prop :=
  interview_active (self w') = interview_active (self w)
  /\ response_in_progress (self w') = response_in_progress (self w)
  /\ is_ai_speaking (self w') = is_ai_speaking (self w)
  /\ current_user_speech (self w') = current_user_speech (self w)
  /\ waiting w' = waiting w
  /\ sent w' = sent w
  /\ calls w' = calls w
  /\ filter is_sending (ready w') = filter is_sending (ready w).

(** The test of [_on_silence_detected]. *)
Definition wants_response (m : ConversationManager) : bool :=
  Str.truthy (Str.strip (current_user_speech m))
  && negb (is_ai_speaking m)
  && negb (response_in_progress m).

(** The environments of the frames number [seen], [seen + 1], ... of a
    [process_audio_chunk] call, paired with the frames. *)
Definition with_envs (frames : nat -> FrameEnv) (seen : nat)
    (l : list bytes) : list (bytes * FrameEnv) :=
  combine l (map frames (seq seen (List.length l))).

(** A list that begins with another. *)
Definition extends {A : Type} (l l' : list A) : Prop :=
  exists more, l' = l ++ more.

(** Transcripts heard while the system is not speaking: each non-empty
    one is appended after a space. *)
Definition heard (pending : string) (transcripts : list string) : string :=
  fold_left (fun acc t => if Str.truthy t then (acc ++ " " ++ t)%string else acc)
            transcripts pending.

(** What a step keeps: the turns so far, and the frame size of the
    detector. *)
Definition kept (w w' : World) : Prop :=
  extends (conversation_history (self w)) (conversation_history (self w'))
  /\ frame_size (vad (self w')) = frame_size (vad (self w)).

End Conversation.

(* ===================================================================== *)
(** ** backend/text_generation.py *)
(* ===================================================================== *)

Module TextGeneration.

Inductive ChatRole := system | user | assistant.

(** An entry of [self.messages]. *)
Record Message := mkMessage { role : ChatRole; content : string }.

(** [resume_data] as far as it is read: the lists under the keys
    "skills" and "projects", [None] when the key is missing. *)
Record ResumeData := mkResumeData {
  skills : option (list string);
  projects : option (list string)
}.

(** The attribute that changes; [client] and [model] do not. *)
Record InterviewerAI := mkInterviewerAI { messages : list Message }.

(** [d.get(key, default)]. *)
Definition get {A : Type} (value : option A) (default : A) : A :=
  match value with Some v => v | None => default end.

(** [s or default] on strings. *)
Definition or_else (s default : string) : string :=
  if Str.truthy s then s else default.

(** The double quote and the line feed. *)
Definition dq : string := String (ascii_of_nat 34) EmptyString.
Definition lf : string := String (ascii_of_nat 10) EmptyString.

Definition skills_text (resume_data : ResumeData) : string :=
  or_else (String.concat ", " (get (skills resume_data) [])) "various skills".

Definition projects_text (resume_data : ResumeData) : string :=
  or_else (String.concat lf (firstn 2 (get (projects resume_data) [])))
    "interesting projects".

Definition system_prompt (candidate_name role : string)
    (resume_data : ResumeData) : string :=
  ("You are Nikki, a professional and friendly AI interviewer conducting a "
   ++ role ++ " interview. 
Candidate Information:
- Name: " ++ candidate_name ++ "
- Role: " ++ role ++ "
- Skills: " ++ skills_text resume_data ++ "
- Notable Projects: " ++ projects_text resume_data ++ "
Interview Guidelines:
- Be conversational, friendly, and professional
- Ask relevant technical and behavioral questions based on their resume
- Follow up on their answers with deeper questions
- Keep responses concise (2-3 sentences max)
- When the user response with simple response like " ++ dq ++ "yes" ++ dq
   ++ " ," ++ dq ++ "ok" ++ dq
   ++ " ask the same question again and make sure the user knows the answer
- Adapt questions based on their experience level
- Cover both technical skills and soft skills
- End gracefully after 10 minutes
Start with a warm greeting introducing yourself. and always avoid generating ** or other symbols in the text, make sure they are in a human readable form")%string.

Definition greeting_prompt (candidate_name role : string) : string :=
  ("Introduce yourself as Nikki and ask " ++ candidate_name
   ++ " if they're ready to begin the " ++ role
   ++ " interview. Keep it brief and friendly.")%string.

Definition closing_prompt (candidate_name : string) : string :=
  ("The 10-minute interview with " ++ candidate_name
   ++ " is now complete. Thank them warmly and professionally, and let them know what to expect next. Keep it brief.")%string.

Definition response_fallback : string :=
  "I see. Could you tell me more about that?".

Definition closing_fallback (candidate_name : string) : string :=
  ("Thank you so much for your time today, " ++ candidate_name
   ++ ". We'll be in touch soon!")%string.

Definition append (m : Message) (self : InterviewerAI) : InterviewerAI :=
  mkInterviewerAI (messages self ++ [m]).

(** [start_interview].  [completion] is the text that
    [client.chat.completions.create] answers to [self.messages], [None]
    when the call (or reading its first choice) raises; nothing catches
    it here, and the result is then [None]. *)
Definition start_interview (candidate_name role : string)
    (resume_data : ResumeData) (completion : option string)
    (self : InterviewerAI) : InterviewerAI * option string :=
  let self := mkInterviewerAI
                [mkMessage system (system_prompt candidate_name role resume_data)] in
  let self := append (mkMessage user (greeting_prompt candidate_name role)) self in
  match completion with
  | None => (self, None)
  | Some assistant_message =>
      let self := append (mkMessage assistant assistant_message) self in
      (self, Some assistant_message)
  end.

(** [generate_response]; the [conversation_history] argument is not
    used. *)
Definition generate_response (user_transcript : string)
    (completion : option string) (self : InterviewerAI)
    : InterviewerAI * string :=
  let self := append (mkMessage user user_transcript) self in
  match completion with
  | Some assistant_message =>
      let self := append (mkMessage assistant assistant_message) self in
      (self, assistant_message)
  | None => (self, response_fallback)
  end.

(** [generate_closing]. *)
Definition generate_closing (candidate_name : string)
    (completion : option string) (self : InterviewerAI)
    : InterviewerAI * string :=
  let self := append (mkMessage user (closing_prompt candidate_name)) self in
  match completion with
  | Some assistant_message =>
      let self := append (mkMessage assistant assistant_message) self in
      (self, assistant_message)
  | None => (self, closing_fallback candidate_name)
  end.

(** The requests of a session after its start. *)
Inductive Request :=
| respond (user_transcript : string) (completion : option string)
| close (candidate_name : string) (completion : option string).

Definition serve (self : InterviewerAI) (r : Request) : InterviewerAI :=
  match r with
  | respond user_transcript completion =>
      fst (generate_response user_transcript completion self)
  | close candidate_name completion =>
      fst (generate_closing candidate_name completion self)
  end.

(** Two messages in a row with the same role. *)
Definition same_role (a b : Message) : bool :=
  match role a, role b with
  | system, system | user, user | assistant, assistant => true
  | _, _ => false
  end.

(** The number of messages of role [user] that are not followed by an
    answer of the assistant. *)
Fixpoint unanswered (l : list Message) : nat :=
  match l with
  | [] => 0%nat
  | m :: rest =>
      ((match role m, rest with
        | user, [] => 1
        | user, next :: _ =>
            match role next with assistant => 0 | _ => 1 end
        | _, _ => 0
        end) + unanswered rest)%nat
  end.

(** The requests whose completion fails. *)
Definition failed (r : Request) : nat :=
  match r with
  | respond _ None | close _ None => 1%nat
  | _ => 0%nat
  end.

Definition failures (rs : list Request) : nat :=
  fold_right (fun r n => (failed r + n)%nat) 0%nat rs.

End TextGeneration.

(* ===================================================================== *)
(** ** backend/speech_recognition.py *)
(* ===================================================================== *)

Module SpeechRecognition.

(** A decoded JSON value, or the dictionary the client library hands
    over.  A dictionary is a list of entries, looked up from the front. *)
#[warnings="-register-all"]
Inductive Value :=
| VNone
| VBool (b : bool)
| VNum (q : Q)
| VStr (s : string)
| VList (items : list Value)
| VDict (entries : list (string * Value)).

(** Truth value of a Python value. *)
Definition truthy (v : Value) : bool :=
  match v with
  | VNone => false
  | VBool b => b
  | VNum q => negb (Qeq_bool q 0)
  | VStr s => Str.truthy s
  | VList items => match items with [] => false | _ => true end
  | VDict entries => match entries with [] => false | _ => true end
  end.

Fixpoint lookup (key : string) (entries : list (string * Value)) : option Value :=
  match entries with
  | [] => None
  | (k, v) :: rest => if (k =? key)%string then Some v else lookup key rest
  end.

(** [v.get(key, default)]; [None] when [v] has no [get], which raises
    AttributeError. *)
Definition get (v : Value) (key : string) (default : Value) : option Value :=
  match v with
  | VDict entries =>
      Some (match lookup key entries with Some x => x | None => default end)
  | _ => None
  end.

(** What arrives at [_on_message]: a dictionary-like object, or a [str]
    or [bytes] with what [json.loads] makes of it, [None] when it
    raises. *)
Inductive Incoming :=
| structured (data : Value)
| encoded (decoded : option Value).

(** What a recognizer does to the outside. *)
Inductive Effect :=
| live_called
| slept (seconds : Z)
| connection_send (connection : nat) (audio_data : bytes)
| connection_finish (connection : nat).

(** How one pass through the [try] of [start_streaming] goes. *)
Inductive Attempt :=
| established
| live_raises
| register_raises.

(** The effects of [k] failed attempts, the first of them made with
    [reconnect_attempts = a]. *)
Definition retries (a k : nat) : list Effect :=
  flat_map (fun i => [live_called; slept (2 ^ Z.of_nat (S i))]) (seq a k).

Section Recognizer.

(** The callables that can be registered for transcripts. *)
Variable Callable : Type.

(** [connection] is [None] or the connection that the n-th failure-free
    count of [live] returned. *)
Record SpeechRecognizer := mkRecognizer {
  connection : option nat;
  transcript_callback : option Callable
}.

(** [__init__]. *)
Definition init : SpeechRecognizer :=
  {| connection := None; transcript_callback := None |}.

Definition max_reconnect_attempts : nat := 5.

(** The [while] loop of [start_streaming]: [todo] is
    [max_reconnect_attempts - reconnect_attempts].  The connection of an
    attempt is named after [reconnect_attempts] at that attempt. *)
Fixpoint connect (todo reconnect_attempts : nat) (outcome : nat -> Attempt)
    (self : SpeechRecognizer) (log : list Effect)
    : SpeechRecognizer * list Effect * nat :=
  match todo with
  | O => (self, log, reconnect_attempts)
  | S todo =>
      let log := log ++ [live_called] in
      match outcome reconnect_attempts with
      | established =>
          (mkRecognizer (Some reconnect_attempts) (transcript_callback self),
           log, reconnect_attempts)
      | live_raises =>
          let reconnect_attempts := S reconnect_attempts in
          connect todo reconnect_attempts outcome self
            (log ++ [slept (2 ^ Z.of_nat reconnect_attempts)])
      | register_raises =>
          let self := mkRecognizer (Some reconnect_attempts)
                        (transcript_callback self) in
          let reconnect_attempts := S reconnect_attempts in
          connect todo reconnect_attempts outcome self
            (log ++ [slept (2 ^ Z.of_nat reconnect_attempts)])
      end
  end.

(** [start_streaming]; the boolean tells whether it returned (true) or
    raised RuntimeError (false). *)
Definition start_streaming (on_transcript : Callable) (outcome : nat -> Attempt)
    (self : SpeechRecognizer) (log : list Effect)
    : SpeechRecognizer * list Effect * bool :=
  let self := mkRecognizer (connection self) (Some on_transcript) in
  let '(self, log, reconnect_attempts) :=
    connect max_reconnect_attempts 0 outcome self log in
  if (reconnect_attempts =? max_reconnect_attempts)%nat
  then (self, log, false)
  else (self, log, true).

(** [send_audio]; an exception of [connection.send] is caught. *)
Definition send_audio (audio_data : bytes) (self : SpeechRecognizer)
    (log : list Effect) : list Effect :=
  match connection self with
  | Some c => log ++ [connection_send c audio_data]
  | None => log
  end.

(** [close]; an exception of [connection.finish] is caught. *)
Definition close (self : SpeechRecognizer) (log : list Effect) : list Effect :=
  match connection self with
  | Some c => log ++ [connection_finish c]
  | None => log
  end.

(** [_on_message]: the argument with which the transcript callback is
    called, [None] when it is not called.  Every exception on the way is
    caught and ends the method. *)
Definition _on_message (message : Incoming) (self : SpeechRecognizer)
    : option Value :=
  match (match message with structured data => Some data | encoded d => d end) with
  | None => None
  | Some data =>
      match get data "channel" VNone with
      | None => None
      | Some c =>
          let channel := if truthy c then c else VDict [] in
          match get channel "alternatives" VNone with
          | None => None
          | Some a =>
              let alternatives := if truthy a then a else VList [] in
              if negb (truthy alternatives) then None
              else
                match alternatives with
                | VList (first :: _) =>
                    match get first "transcript" (VStr "") with
                    | None => None
                    | Some transcript =>
                        if truthy transcript
                           && negb (Vad.is_None (transcript_callback self))
                        then Some transcript
                        else None
                    end
                | _ => None
                end
          end
      end
  end.

(** The sleeps of a log, in seconds. *)
Fixpoint total_sleep (log : list Effect) : Z :=
  match log with
  | [] => 0
  | slept seconds :: rest => seconds + total_sleep rest
  | _ :: rest => total_sleep rest
  end.

Definition is_live (e : Effect) : bool :=
  match e with live_called => true | _ => false end.

End Recognizer.

Arguments init Callable : clear implicits.

End SpeechRecognition.

(* ===================================================================== *)
(** ** Concrete data used to run the definitions *)
(* ===================================================================== *)

Module Scenario.

Import Vad Conversation.

(** One frame of the configured size: 480 samples of 16 bits. *)
Definition frame : bytes := repeat x00 960.

Definition voiced : FrameEnv := mkFrameEnv (Some true) 0 0.
Definition quiet (now : Q) : FrameEnv := mkFrameEnv (Some false) now now.
Definition broken : FrameEnv := mkFrameEnv None 0 0.

(** The detector a manager is built with. *)
Definition detector : VoiceActivityDetector BoundMethod :=
  vad (init "Ana" "Engineer").

(** A session that has started: the greeting is being played. *)
Definition greeting_sound : bytes := [x01; x02].
Definition reply_sound : bytes := [x03].

Definition start_env : StartEnv :=
  mkStartEnv 0 (Some "Hello Ana, shall we begin?"%string) (Some greeting_sound) true.

Definition started : World :=
  match fst (start_interview start_env (boot "Ana" "Engineer")) with
  | Return w => w
  | _ => boot "Ana" "Engineer"
  end.

(** A chunk of seven frames: three of speech, three of silence read at
    the instant [t], one of silence read a second later. *)
Definition utterance : bytes := List.concat (repeat frame 7).

Definition utterance_frames (t : Q) (n : nat) : FrameEnv :=
  nth n [voiced; voiced; voiced; quiet t; quiet t; quiet t;
         quiet (t + 1)] broken.

Definition farewell : ClosingEnv :=
  mkClosingEnv "Thank you, Ana." (Some [x04]).

Definition utterance_env (t : Q) : ChunkEnv :=
  mkChunkEnv t (utterance_frames t) farewell.

(** A reply whose send finishes at once, one whose send gives control
    back, and one whose synthesis raises. *)
Definition answer : TaskEnv := mkTaskEnv "Tell me more." (Some reply_sound) false.
Definition answer_suspending : TaskEnv := mkTaskEnv "Tell me more." (Some reply_sound) true.
Definition synthesis_fails : TaskEnv := mkTaskEnv "Tell me more." None false.

(** The greeting has been played, the candidate has said "hello" and
    has gone silent for a second. *)
Definition spoken : list Event :=
  [websocket_message "ai_audio_completed"; transcript_received "hello";
   audio_chunk utterance (utterance_env 10)].

(** The same, and a second utterance is heard before the event loop has
    run the task that the first one created. *)
Definition spoken_twice : list Event :=
  spoken ++ [audio_chunk utterance (utterance_env 20)].

(** A history of calls on a detector. *)
Definition history : list (Op BoundMethod) :=
  [op_set_silence_callback on_silence_detected_method;
   op_process_frame frame voiced; op_process_frame frame voiced;
   op_reset; op_process_frame frame (quiet 10)].

(** A detector in a confirmed episode whose silence began at instant 10. *)
Definition silent_since_10 : VoiceActivityDetector BoundMethod :=
  fst (feed detector
         [(frame, voiced); (frame, voiced); (frame, voiced);
          (frame, quiet 10); (frame, quiet 10); (frame, quiet 10)]).

End Scenario.

(* ===================================================================== *)
(** ** More concrete data *)
(* ===================================================================== *)

Module Samples.

Import Vad Conversation Scenario.

Local Open Scope string_scope.
Local Open Scope list_scope.

(** The timer of a session started at instant 0. *)
Definition running_timer : Utils.InterviewTimer :=
  Utils.start 0 (Utils.init Config.INTERVIEW_DURATION_MINUTES).

(** Calls after which the detector is in a confirmed episode whose
    silence began at instant 10. *)
Definition silent_history : list (Op BoundMethod) :=
  [op_set_silence_callback on_silence_detected_method;
   op_process_frame frame voiced; op_process_frame frame voiced;
   op_process_frame frame voiced;
   op_process_frame frame (quiet 10); op_process_frame frame (quiet 10);
   op_process_frame frame (quiet 10)].

(** The greeting has been played: the session listens. *)
Definition listening : World :=
  match steps [websocket_message "ai_audio_completed"] started with
  | Return w => w
  | _ => started
  end.

(** A chunk that arrives when the ten minutes are over. *)
Definition late_env : ChunkEnv :=
  mkChunkEnv 600 (utterance_frames 600) farewell.

(** The candidate has spoken, and the event loop has run the generation
    task: to its end, or up to its send. *)
Definition answered : World :=
  match steps (spoken ++ [loop_runs_next answer]) started with
  | Return w => w
  | _ => started
  end.

Definition sending : World :=
  match steps (spoken_twice ++ [loop_runs_next answer_suspending]) started with
  | Return w => w
  | _ => started
  end.

(** The listening session, had its detector been built for frames of
    no duration. *)
Definition misconfigured : World :=
  update (with_vad (Vad.init BoundMethod Config.SAMPLE_RATE 0
                      Config.SILENCE_THRESHOLD_SECONDS)) listening.

(** The callable a recognizer is started with. *)
Inductive Method := on_transcript_received_method.

(** The service answers at the third attempt, or never. *)
Definition third_time (i : nat) : SpeechRecognition.Attempt :=
  if (i <? 2)%nat then SpeechRecognition.live_raises
  else SpeechRecognition.established.

Definition never (i : nat) : SpeechRecognition.Attempt :=
  SpeechRecognition.live_raises.

(** A message of the recognition service. *)
Definition hello_message : SpeechRecognition.Incoming :=
  SpeechRecognition.structured
    (SpeechRecognition.VDict
       [("type", SpeechRecognition.VStr "Results");
        ("channel",
         SpeechRecognition.VDict
           [("alternatives",
             SpeechRecognition.VList
               [SpeechRecognition.VDict
                  [("transcript", SpeechRecognition.VStr "hello");
                   ("confidence", SpeechRecognition.VNum 1)]])])]).

Definition resume : TextGeneration.ResumeData :=
  TextGeneration.mkResumeData
    (Some ["Python"; "SQL"])
    (Some ["A compiler"; "A chat server"; "A game"]).

End Samples.

(* ===================================================================== *)
(** ** Properties of the detector *)
(* ===================================================================== *)

Module VadFacts.

Import Vad.

Ltac step := cbn -[Qle_bool Qminus Nat.eqb Nat.leb].

Ltac split_cases :=
  repeat (step;
    match goal with
    | |- context [if ?b then _ else _] => destruct b eqn:?
    | |- context [match ?o with Some _ => _ | None => _ end] => destruct o eqn:?
    end).

Section Facts.

Variable Callable : Type.
Implicit Type self : VoiceActivityDetector Callable.

Lemma reset_fields self :
  reset self =
  mkVad (sample_rate self) (frame_duration_ms self)
        (silence_threshold_seconds self) (frame_size self)
        false None false 0%nat 0%nat
        (silence_padding_frames self) (speech_padding_frames self)
        (on_silence_detected self).
Proof. reflexivity. Qed.

Lemma speech_frame_inv self frame env :
  speech_frame self frame env = true ->
  (len frame =? frame_size self) = true /\ classified env = Some true.
Proof.
  unfold speech_frame. intros H. apply andb_prop in H. destruct H as [H1 H2].
  split; [exact H1 | ].
  destruct (classified env) as [[ | ] | ]; try discriminate; reflexivity.
Qed.

Lemma silence_frame_inv self frame env :
  silence_frame self frame env = true ->
  (len frame =? frame_size self) = true /\ classified env = Some false.
Proof.
  unfold silence_frame. intros H. apply andb_prop in H. destruct H as [H1 H2].
  split; [exact H1 | ].
  destruct (classified env) as [[ | ] | ]; try discriminate; reflexivity.
Qed.

Lemma process_frame_same_settings self frame env :
  same_settings self (after (process_frame self frame env)).
Proof.
  unfold same_settings, process_frame.
  destruct self as [sr fd th fs sp ss sd cs cp sil spp cb]; cbn.
  split_cases; repeat split.
Qed.

Lemma apply_op_same_settings self o : same_settings self (apply_op self o).
Proof.
  destruct o as [frame env | | callback]; cbn.
  - apply process_frame_same_settings.
  - repeat split.
  - repeat split.
Qed.

Lemma same_settings_trans self1 self2 self3 :
  same_settings self1 self2 -> same_settings self2 self3 ->
  same_settings self1 self3.
Proof.
  unfold same_settings. intuition congruence.
Qed.

Lemma apply_ops_same_settings ops : forall self,
  same_settings self (apply_ops self ops).
Proof.
  induction ops as [ | o ops IH]; intros self.
  - repeat split.
  - cbn. eapply same_settings_trans; [apply apply_op_same_settings | apply IH].
Qed.

Lemma process_frame_counters self frame env :
  counters_exclusive self ->
  counters_exclusive (after (process_frame self frame env)).
Proof.
  unfold counters_exclusive, process_frame.
  destruct self as [sr fd th fs sp ss sd cs cp sil spp cb]; cbn.
  intros H.
  split_cases; first [exact H | left; reflexivity | right; reflexivity].
Qed.

Lemma apply_ops_counters ops : forall self,
  counters_exclusive self -> counters_exclusive (apply_ops self ops).
Proof.
  induction ops as [ | o ops IH]; intros self H; [exact H | ].
  cbn. apply IH.
  destruct o as [frame env | | callback]; cbn.
  - apply process_frame_counters, H.
  - left; reflexivity.
  - exact H.
Qed.

(** The callback is called only in one place. *)
Lemma called_inv self frame env cb :
  called (process_frame self frame env) = Some cb ->
  speech_detected self = true
  /\ silence_frame self frame env = true
  /\ on_silence_detected self = Some cb
  /\ after (process_frame self frame env) = reset self
  /\ exists started,
       (silence_start self = Some started
        \/ silence_start self = None
           /\ S (consecutive_silence self) = silence_padding_frames self
           /\ started = clock_start env)
       /\ (silence_threshold_seconds self <= clock_check env - started)%Q.
Proof.
  unfold process_frame, silence_frame.
  destruct self as [sr fd th fs sp ss sd cs cp sil spp cb0]; step.
  destruct (len frame =? fs) eqn:Hlen; step; [ | discriminate].
  destruct (classified env) as [[ | ] | ] eqn:Hcls; step; try discriminate.
  destruct sd; step; [ | discriminate].
  destruct ((S cs =? sil)%nat && is_None ss) eqn:Hstart; step.
  - apply andb_prop in Hstart. destruct Hstart as [Hn Hs].
    apply Nat.eqb_eq in Hn. destruct ss; [discriminate | ].
    destruct (Qle_bool th (clock_check env - clock_start env)) eqn:Hq; step;
      [ | discriminate].
    intros H. repeat split; try assumption.
    exists (clock_start env). split.
    + right. repeat split; assumption.
    + apply Qle_bool_iff, Hq.
  - destruct ss as [started | ]; step; [ | discriminate].
    destruct (Qle_bool th (clock_check env - started)) eqn:Hq; step;
      [ | discriminate].
    intros H. repeat split; try assumption.
    exists started. split.
    + left. reflexivity.
    + apply Qle_bool_iff, Hq.
Qed.

Lemma called_when_due self frame env started :
  speech_detected self = true ->
  silence_frame self frame env = true ->
  silence_start self = Some started ->
  (silence_threshold_seconds self <= clock_check env - started)%Q ->
  process_frame self frame env
  = mkFrameResult (reset self) false (on_silence_detected self).
Proof.
  intros Hsd Hf Hss Hq. apply silence_frame_inv in Hf. destruct Hf as [Hlen Hcls].
  apply Qle_bool_iff in Hq.
  unfold process_frame. rewrite Hlen, Hcls. step.
  rewrite Hsd, Hss. step. rewrite andb_false_r. step.
  rewrite Hss, Hq. reflexivity.
Qed.

Lemma not_called_before_due self frame env started :
  silence_start self = Some started ->
  ~ (silence_threshold_seconds self <= clock_check env - started)%Q ->
  called (process_frame self frame env) = None.
Proof.
  intros Hss Hq.
  destruct (called (process_frame self frame env)) as [cb | ] eqn:Hc; [ | reflexivity].
  apply called_inv in Hc.
  destruct Hc as (_ & _ & _ & _ & t & [Ht | [Ht _]] & Hle).
  - rewrite Hss in Ht. injection Ht as <-. contradiction.
  - rewrite Hss in Ht. discriminate.
Qed.

Lemma fired_bound self frame env :
  (fired (process_frame self frame env)
   + b2n (speech_detected (after (process_frame self frame env)))
   <= (if negb (speech_detected self)
          && speech_detected (after (process_frame self frame env))
       then 1 else 0)
      + b2n (speech_detected self))%nat.
Proof.
  unfold fired.
  destruct (called (process_frame self frame env)) as [cb | ] eqn:Hc.
  - apply called_inv in Hc. destruct Hc as (Hsd & _ & _ & Ha & _).
    rewrite Ha, Hsd. step. lia.
  - destruct (speech_detected self), (speech_detected (after _)); step; lia.
Qed.

Lemma feed_bound frames : forall self,
  (snd (feed self frames) + b2n (speech_detected (fst (feed self frames)))
   <= episodes self frames + b2n (speech_detected self))%nat.
Proof.
  induction frames as [ | [frame env] rest IH]; intros self.
  - cbn; lia.
  - cbn [feed episodes].
    specialize (IH (after (process_frame self frame env))).
    pose proof (fired_bound self frame env) as Hf.
    destruct (feed (after (process_frame self frame env)) rest) as [s' n].
    cbn [fst snd] in *. lia.
Qed.

Lemma feed_cons_fst self frame env rest :
  fst (feed self ((frame, env) :: rest))
  = fst (feed (after (process_frame self frame env)) rest).
Proof.
  cbn [feed]. destruct (feed (after (process_frame self frame env)) rest).
  reflexivity.
Qed.

Lemma feed_cons_snd self frame env rest :
  snd (feed self ((frame, env) :: rest))
  = (fired (process_frame self frame env)
     + snd (feed (after (process_frame self frame env)) rest))%nat.
Proof.
  cbn [feed]. destruct (feed (after (process_frame self frame env)) rest).
  reflexivity.
Qed.

Lemma speech_frame_same self self' frame env :
  frame_size self' = frame_size self ->
  speech_frame self' frame env = speech_frame self frame env.
Proof. unfold speech_frame. intros ->. reflexivity. Qed.

Lemma silence_frame_same self self' frame env :
  frame_size self' = frame_size self ->
  silence_frame self' frame env = silence_frame self frame env.
Proof. unfold silence_frame. intros ->. reflexivity. Qed.

(** What a speech frame does. *)
Lemma speech_step self frame env :
  speech_frame self frame env = true ->
  let r := process_frame self frame env in
  returned r = true /\ called r = None
  /\ same_settings self (after r)
  /\ on_silence_detected (after r) = on_silence_detected self
  /\ consecutive_speech (after r) = S (consecutive_speech self)
  /\ consecutive_silence (after r) = 0%nat
  /\ ((speech_padding_frames self <= S (consecutive_speech self))%nat ->
      is_speaking (after r) = true /\ speech_detected (after r) = true
      /\ silence_start (after r) = None)
  /\ ((S (consecutive_speech self) < speech_padding_frames self)%nat ->
      is_speaking (after r) = is_speaking self
      /\ speech_detected (after r) = speech_detected self
      /\ silence_start (after r) = silence_start self).
Proof.
  intros H. apply speech_frame_inv in H. destruct H as [Hlen Hcls].
  unfold process_frame. rewrite Hlen, Hcls.
  destruct self as [sr fd th fs sp ss sd cs cp sil spp cb]; step.
  destruct (spp <=? S cp)%nat eqn:L; step;
    [apply Nat.leb_le in L | apply Nat.leb_gt in L];
    repeat split; intros; try reflexivity; lia.
Qed.

(** What a silence frame does before speech is confirmed. *)
Lemma silence_step_unconfirmed self frame env :
  silence_frame self frame env = true ->
  speech_detected self = false ->
  let r := process_frame self frame env in
  returned r = false /\ called r = None
  /\ same_settings self (after r)
  /\ consecutive_silence (after r) = S (consecutive_silence self)
  /\ consecutive_speech (after r) = 0%nat
  /\ is_speaking (after r) = is_speaking self
  /\ speech_detected (after r) = false
  /\ silence_start (after r) = silence_start self.
Proof.
  intros H Hsd. apply silence_frame_inv in H. destruct H as [Hlen Hcls].
  unfold process_frame. rewrite Hlen, Hcls.
  destruct self as [sr fd th fs sp ss sd cs cp sil spp cb]; step.
  cbn in Hsd. subst sd. step. repeat split.
Qed.

(** What a silence frame does in a confirmed episode whose timer has not
    started, when it is not yet the N-th in a row. *)
Lemma silence_step_waiting self frame env :
  silence_frame self frame env = true ->
  speech_detected self = true ->
  silence_start self = None ->
  S (consecutive_silence self) <> silence_padding_frames self ->
  let r := process_frame self frame env in
  returned r = false /\ called r = None
  /\ same_settings self (after r)
  /\ consecutive_silence (after r) = S (consecutive_silence self)
  /\ speech_detected (after r) = true
  /\ silence_start (after r) = None.
Proof.
  intros H Hsd Hss Hn. apply silence_frame_inv in H. destruct H as [Hlen Hcls].
  unfold process_frame. rewrite Hlen, Hcls.
  destruct self as [sr fd th fs sp ss sd cs cp sil spp cb]; step.
  cbn in Hsd, Hss, Hn. subst sd ss. step.
  apply Nat.eqb_neq in Hn. rewrite Hn. step. repeat split.
Qed.

(** What the N-th silence frame in a row does in a confirmed episode:
    the timer starts at this frame, and the duration is tested at once. *)
Lemma silence_step_start self frame env :
  silence_frame self frame env = true ->
  speech_detected self = true ->
  silence_start self = None ->
  S (consecutive_silence self) = silence_padding_frames self ->
  let r := process_frame self frame env in
  if Qle_bool (silence_threshold_seconds self)
       (clock_check env - clock_start env)
  then after r = reset self /\ called r = on_silence_detected self
  else silence_start (after r) = Some (clock_start env) /\ called r = None.
Proof.
  intros H Hsd Hss Hn. apply silence_frame_inv in H. destruct H as [Hlen Hcls].
  unfold process_frame. rewrite Hlen, Hcls.
  destruct self as [sr fd th fs sp ss sd cs cp sil spp cb]; step.
  cbn in Hsd, Hss, Hn. subst sd ss. step.
  apply Nat.eqb_eq in Hn. rewrite Hn. step.
  destruct (Qle_bool th (clock_check env - clock_start env)); step; split; reflexivity.
Qed.

Lemma speech_speech_silence self f1 e1 f2 e2 f3 e3 :
  speech_padding_frames self = 3%nat ->
  speech_frame self f1 e1 = true ->
  speech_frame self f2 e2 = true ->
  silence_frame self f3 e3 = true ->
  let s := fst (feed (reset self) [(f1, e1); (f2, e2); (f3, e3)]) in
  is_speaking s = false /\ speech_detected s = false.
Proof.
  intros Hpad H1 H2 H3. cbv zeta.
  rewrite !feed_cons_fst. cbn [feed fst].
  set (s0 := reset self).
  assert (F0 : frame_size s0 = frame_size self) by reflexivity.
  assert (P0 : speech_padding_frames s0 = 3%nat) by exact Hpad.
  rewrite <- (speech_frame_same self s0 f1 e1 F0) in H1.
  destruct (speech_step _ _ _ H1)
    as (_ & _ & (_ & _ & _ & F1 & _ & P1) & _ & C1 & _ & _ & K1).
  set (s1 := after (process_frame s0 f1 e1)) in *.
  rewrite P0 in K1. change (consecutive_speech s0) with 0%nat in C1, K1.
  destruct K1 as (A1 & B1 & _); [lia | ].
  change (is_speaking s0) with false in A1.
  change (speech_detected s0) with false in B1.
  rewrite <- (speech_frame_same self s1 f2 e2 (eq_trans F1 F0)) in H2.
  destruct (speech_step _ _ _ H2)
    as (_ & _ & (_ & _ & _ & F2 & _ & P2) & _ & C2 & _ & _ & K2).
  set (s2 := after (process_frame s1 f2 e2)) in *.
  rewrite P1, P0, C1 in K2.
  destruct K2 as (A2 & B2 & _); [lia | ].
  rewrite <- (silence_frame_same self s2 f3 e3 (eq_trans F2 (eq_trans F1 F0))) in H3.
  destruct (silence_step_unconfirmed _ _ _ H3 (eq_trans B2 B1))
    as (_ & _ & _ & _ & _ & A3 & B3 & _).
  split; congruence.
Qed.

Lemma process_frame_keeps_callback self frame env :
  on_silence_detected (after (process_frame self frame env))
  = on_silence_detected self.
Proof.
  unfold process_frame.
  destruct self as [sr fd th fs sp ss sd cs cp sil spp cb]; step.
  split_cases; reflexivity.
Qed.

Lemma three_speech_frames self f1 e1 f2 e2 f3 e3 :
  speech_padding_frames self = 3%nat ->
  speech_frame self f1 e1 = true ->
  speech_frame self f2 e2 = true ->
  speech_frame self f3 e3 = true ->
  let s := fst (feed self [(f1, e1); (f2, e2); (f3, e3)]) in
  is_speaking s = true /\ speech_detected s = true /\ silence_start s = None
  /\ consecutive_silence s = 0%nat
  /\ same_settings self s
  /\ on_silence_detected s = on_silence_detected self.
Proof.
  intros Hpad H1 H2 H3. cbv zeta.
  rewrite !feed_cons_fst. cbn [feed fst].
  destruct (speech_step _ _ _ H1)
    as (_ & _ & S1 & O1 & C1 & _ & _ & _).
  set (s1 := after (process_frame self f1 e1)) in *.
  pose proof S1 as (_ & _ & _ & F1 & _ & P1).
  rewrite <- (speech_frame_same self s1 f2 e2 F1) in H2.
  destruct (speech_step _ _ _ H2)
    as (_ & _ & S2 & O2 & C2 & _ & _ & _).
  set (s2 := after (process_frame s1 f2 e2)) in *.
  pose proof S2 as (_ & _ & _ & F2 & _ & P2).
  rewrite <- (speech_frame_same self s2 f3 e3 (eq_trans F2 F1)) in H3.
  destruct (speech_step _ _ _ H3)
    as (_ & _ & S3 & O3 & C3 & Z3 & K3 & _).
  set (s3 := after (process_frame s2 f3 e3)) in *.
  destruct K3 as (A3 & B3 & T3); [rewrite P2, P1, Hpad; lia | ].
  split; [exact A3 | ]. split; [exact B3 | ]. split; [exact T3 | ].
  split; [exact Z3 | ].
  split; [exact (@same_settings_trans _ _ _ S1 (@same_settings_trans _ _ _ S2 S3)) | ].
  congruence.
Qed.

Lemma three_silence_frames self g1 d1 g2 d2 g3 d3 :
  silence_padding_frames self = 3%nat ->
  speech_detected self = true ->
  silence_start self = None ->
  consecutive_silence self = 0%nat ->
  silence_frame self g1 d1 = true ->
  silence_frame self g2 d2 = true ->
  silence_frame self g3 d3 = true ->
  silence_start (fst (feed self [(g1, d1)])) = None
  /\ silence_start (fst (feed self [(g1, d1); (g2, d2)])) = None
  /\ snd (feed self [(g1, d1); (g2, d2)]) = 0%nat
  /\ let s2 := fst (feed self [(g1, d1); (g2, d2)]) in
     let r := process_frame s2 g3 d3 in
     if Qle_bool (silence_threshold_seconds self) (clock_check d3 - clock_start d3)
     then after r = reset self /\ called r = on_silence_detected self
     else silence_start (after r) = Some (clock_start d3) /\ called r = None.
Proof.
  intros Hpad Hsd Hss Hcs H1 H2 H3. cbv zeta.
  rewrite !feed_cons_fst, !feed_cons_snd. cbn [feed fst snd].
  destruct (silence_step_waiting _ _ _ H1 Hsd Hss)
    as (_ & N1 & S1 & C1 & D1 & T1); [rewrite Hcs, Hpad; lia | ].
  set (s1 := after (process_frame self g1 d1)) in *.
  pose proof S1 as (_ & _ & X1 & F1 & P1 & _).
  rewrite <- (silence_frame_same self s1 g2 d2 F1) in H2.
  destruct (silence_step_waiting _ _ _ H2 D1 T1)
    as (_ & N2 & S2 & C2 & D2 & T2); [rewrite C1, Hcs, P1, Hpad; lia | ].
  set (s2 := after (process_frame s1 g2 d2)) in *.
  pose proof S2 as (_ & _ & X2 & F2 & P2 & _).
  rewrite <- (silence_frame_same self s2 g3 d3 (eq_trans F2 F1)) in H3.
  pose proof (silence_step_start _ _ _ H3 D2 T2) as K3.
  cbv zeta in K3. rewrite X2, X1 in K3.
  split; [exact T1 | ]. split; [exact T2 | ].
  split; [unfold fired; rewrite N1, N2; reflexivity | ].
  assert (R : reset s2 = reset self).
  { clear K3.
    assert (O : on_silence_detected s2 = on_silence_detected self).
    { unfold s2, s1. rewrite !process_frame_keeps_callback. reflexivity. }
    destruct S1 as (? & ? & ? & ? & ? & ?), S2 as (? & ? & ? & ? & ? & ?).
    rewrite !reset_fields. congruence. }
  assert (O : on_silence_detected s2 = on_silence_detected self).
  { rewrite !reset_fields in R. congruence. }
  rewrite R, O in K3.
  apply K3. rewrite C2, C1, Hcs, P2, P1, Hpad. reflexivity.
Qed.

(** C6.  A frame whose length is not [frame_size] is rejected:
    [process_frame] returns False (silence), leaves every attribute of the
    detector as it was, and does not call the silence callback. *)
Theorem process_frame_rejects_wrong_length self frame env :
  len frame <> frame_size self ->
  process_frame self frame env = mkFrameResult self false None.
Proof.
  intros Hlen. unfold process_frame.
  destruct (Z.eqb_spec (len frame) (frame_size self)) as [E | _].
  - contradiction.
  - reflexivity.
Qed.

(** C9.  When the classifier raises on a frame of the right length,
    [process_frame] returns False (silence) instead of raising, keeps the
    detector as it was, and the frames that follow are processed as if
    the failing one had not been there. *)
Theorem process_frame_classifier_failure self frame env :
  len frame = frame_size self ->
  classified env = None ->
  process_frame self frame env = mkFrameResult self false None
  /\ forall rest, feed self ((frame, env) :: rest) = feed self rest.
Proof.
  intros Hlen Hcls.
  assert (H : process_frame self frame env = mkFrameResult self false None).
  { unfold process_frame. rewrite Hlen, Z.eqb_refl, Hcls. reflexivity. }
  split; [exact H | ].
  intros rest. cbn [feed]. rewrite H. cbn.
  destruct (feed self rest). reflexivity.
Qed.

Lemma timer_start_inv self frame env :
  silence_start self = None ->
  silence_start (after (process_frame self frame env)) <> None
  \/ called (process_frame self frame env) <> None ->
  silence_frame self frame env = true
  /\ S (consecutive_silence self) = silence_padding_frames self
  /\ speech_detected self = true.
Proof.
  unfold process_frame, silence_frame.
  destruct self as [sr fd th fs sp ss sd cs cp sil spp cb]; step.
  intros ->.
  destruct (len frame =? fs) eqn:Hlen; step; [ | intros [H | H]; congruence].
  destruct (classified env) as [[ | ] | ] eqn:Hcls; step.
  - destruct (spp <=? S cp)%nat; step; intros [H | H]; congruence.
  - destruct sd; step; [ | intros [H | H]; congruence].
    rewrite andb_true_r.
    destruct (S cs =? sil)%nat eqn:Hn; step; [ | intros [H | H]; congruence].
    apply Nat.eqb_eq in Hn. intros _. repeat split. exact Hn.
  - intros [H | H]; congruence.
Qed.

Lemma reset_same self self' :
  same_settings self self' ->
  on_silence_detected self' = on_silence_detected self ->
  reset self' = reset self.
Proof.
  intros (? & ? & ? & ? & ? & ?) ?. rewrite !reset_fields. congruence.
Qed.

(** C4.  Hysteresis with N = 3, for a detector built by the constructor
    and used in any way since.  (1) From a reset, speech, speech, silence
    leaves the confirmed-speaking flag false.  (2) Three speech frames in
    a row, from any state, set the flag and clear the silence timer; if
    silence frames follow, the timer is still not started after the first
    and after the second and no callback is made, and it is started by
    the third, from the clock read at that frame.  (3) In general the
    timer is started (or the callback made) from a state without timer
    only by a silence frame that is the third in a row of a confirmed
    episode. *)
Theorem hysteresis sample_rate frame_duration_ms threshold ops :
  let self := apply_ops (init Callable sample_rate frame_duration_ms threshold) ops in
  (forall f1 e1 f2 e2 f3 e3,
      speech_frame self f1 e1 = true ->
      speech_frame self f2 e2 = true ->
      silence_frame self f3 e3 = true ->
      let s := fst (feed (reset self) [(f1, e1); (f2, e2); (f3, e3)]) in
      is_speaking s = false /\ speech_detected s = false)
  /\ (forall f1 e1 f2 e2 f3 e3,
      speech_frame self f1 e1 = true ->
      speech_frame self f2 e2 = true ->
      speech_frame self f3 e3 = true ->
      let s := fst (feed self [(f1, e1); (f2, e2); (f3, e3)]) in
      is_speaking s = true /\ speech_detected s = true /\ silence_start s = None
      /\ forall g1 d1 g2 d2 g3 d3,
          silence_frame self g1 d1 = true ->
          silence_frame self g2 d2 = true ->
          silence_frame self g3 d3 = true ->
          silence_start (fst (feed s [(g1, d1)])) = None
          /\ silence_start (fst (feed s [(g1, d1); (g2, d2)])) = None
          /\ snd (feed s [(g1, d1); (g2, d2)]) = 0%nat
          /\ let s2 := fst (feed s [(g1, d1); (g2, d2)]) in
             let r := process_frame s2 g3 d3 in
             if Qle_bool threshold (clock_check d3 - clock_start d3)
             then after r = reset self /\ called r = on_silence_detected self
             else silence_start (after r) = Some (clock_start d3)
                  /\ called r = None)
  /\ (forall frame env,
      silence_start self = None ->
      silence_start (after (process_frame self frame env)) <> None
      \/ called (process_frame self frame env) <> None ->
      silence_frame self frame env = true
      /\ consecutive_silence self = 2%nat
      /\ speech_detected self = true).
Proof.
  intros self.
  pose proof (apply_ops_same_settings ops
                (init Callable sample_rate frame_duration_ms threshold))
    as (_ & _ & Hth & _ & Hsil & Hsp).
  fold self in Hth, Hsil, Hsp. cbn in Hth, Hsil, Hsp.
  split; [ | split].
  - intros f1 e1 f2 e2 f3 e3 H1 H2 H3.
    exact (speech_speech_silence self f1 e1 f2 e2 f3 e3 Hsp H1 H2 H3).
  - intros f1 e1 f2 e2 f3 e3 H1 H2 H3.
    destruct (three_speech_frames self f1 e1 f2 e2 f3 e3 Hsp H1 H2 H3)
      as (A & B & T & Z & St & O).
    cbv zeta. set (s := fst (feed self [(f1, e1); (f2, e2); (f3, e3)])) in *.
    split; [exact A | ]. split; [exact B | ]. split; [exact T | ].
    intros g1 d1 g2 d2 g3 d3 G1 G2 G3.
    pose proof St as (_ & _ & Hth' & F & Hsil' & _).
    rewrite <- (silence_frame_same self s g1 d1 F) in G1.
    rewrite <- (silence_frame_same self s g2 d2 F) in G2.
    rewrite <- (silence_frame_same self s g3 d3 F) in G3.
    pose proof (three_silence_frames s g1 d1 g2 d2 g3 d3
                  (eq_trans Hsil' Hsil) B T Z G1 G2 G3) as K.
    cbv zeta in K. rewrite Hth', Hth, (reset_same St O), O in K. exact K.
  - intros frame env Hnone Hstart.
    destruct (timer_start_inv self frame env Hnone Hstart) as (Hf & Hn & Hsd).
    rewrite Hsil in Hn. split; [exact Hf | ]. split; [lia | exact Hsd].
Qed.

(** C5.  The silence callback, for a detector in any state.  (1) It is
    called only at a silence frame of a confirmed-speech episode, when the
    time since the start of the silence has reached the threshold, and
    the detector is then fully reset.  (2) It is called as soon as that
    duration reaches the threshold, and (3) not while the duration is
    below it.  (4) It is not called before speech has been confirmed, in
    particular (5) not at the frame that follows a call.  (6) Over any
    sequence of frames the calls are at most as many as the episodes that
    were confirmed, counting the one under way at the start; so (7)
    frames that confirm no episode call nothing. *)
Theorem silence_callback_once_per_episode self :
  (forall frame env cb,
      called (process_frame self frame env) = Some cb ->
      speech_detected self = true
      /\ silence_frame self frame env = true
      /\ on_silence_detected self = Some cb
      /\ after (process_frame self frame env) = reset self
      /\ exists started,
           (silence_start self = Some started
            \/ silence_start self = None
               /\ S (consecutive_silence self) = silence_padding_frames self
               /\ started = clock_start env)
           /\ (silence_threshold_seconds self <= clock_check env - started)%Q)
  /\ (forall frame env started,
      speech_detected self = true ->
      silence_frame self frame env = true ->
      silence_start self = Some started ->
      (silence_threshold_seconds self <= clock_check env - started)%Q ->
      process_frame self frame env
      = mkFrameResult (reset self) false (on_silence_detected self))
  /\ (forall frame env started,
      silence_start self = Some started ->
      ~ (silence_threshold_seconds self <= clock_check env - started)%Q ->
      called (process_frame self frame env) = None)
  /\ (forall frame env,
      speech_detected self = false ->
      called (process_frame self frame env) = None)
  /\ (forall frame env frame' env',
      called (process_frame self frame env) <> None ->
      called (process_frame (after (process_frame self frame env)) frame' env')
      = None)
  /\ (forall frames,
      (snd (feed self frames) + b2n (speech_detected (fst (feed self frames)))
       <= episodes self frames + b2n (speech_detected self))%nat)
  /\ (forall frames,
      speech_detected self = false ->
      episodes self frames = 0%nat ->
      snd (feed self frames) = 0%nat).
Proof.
  assert (Hnot : forall s : VoiceActivityDetector Callable, forall frame env,
             speech_detected s = false ->
             called (process_frame s frame env) = None).
  { intros s frame env Hsd.
    destruct (called (process_frame s frame env)) as [cb | ] eqn:Hc;
      [ | reflexivity].
    apply called_inv in Hc. destruct Hc as (Hsd' & _). congruence. }
  repeat apply conj.
  - intros frame env cb. apply called_inv.
  - intros frame env started. apply called_when_due.
  - intros frame env started. apply not_called_before_due.
  - intros frame env. apply Hnot.
  - intros frame env frame' env' Hc. apply Hnot.
    destruct (called (process_frame self frame env)) as [cb | ] eqn:Hcb;
      [ | contradiction].
    apply called_inv in Hcb. destruct Hcb as (_ & _ & _ & -> & _).
    reflexivity.
  - intros frames. apply feed_bound.
  - intros frames Hsd Hep. pose proof (feed_bound frames self) as Hb.
    rewrite Hsd, Hep in Hb. cbn in Hb. lia.
Qed.

Lemma silence_zeroes_speech self frame env :
  silence_frame self frame env = true ->
  consecutive_speech (after (process_frame self frame env)) = 0%nat.
Proof.
  intros H. apply silence_frame_inv in H. destruct H as [Hlen Hcls].
  unfold process_frame. rewrite Hlen, Hcls.
  destruct self as [sr fd th fs sp ss sd cs cp sil spp cb]; step.
  split_cases; reflexivity.
Qed.

(** C10.  After the constructor and after any history of [process_frame],
    [reset] and [set_silence_callback] calls, at most one of
    [consecutive_speech] and [consecutive_silence] is not zero; a frame
    classified as speech zeroes the silence counter and a frame
    classified as silence zeroes the speech counter. *)
Theorem counters_never_both_nonzero sample_rate frame_duration_ms threshold ops :
  let self := apply_ops (init Callable sample_rate frame_duration_ms threshold) ops in
  (consecutive_speech self = 0%nat \/ consecutive_silence self = 0%nat)
  /\ forall frame env,
       (speech_frame self frame env = true ->
        consecutive_silence (after (process_frame self frame env)) = 0%nat)
       /\ (silence_frame self frame env = true ->
           consecutive_speech (after (process_frame self frame env)) = 0%nat).
Proof.
  cbv zeta. split.
  - apply apply_ops_counters. left; reflexivity.
  - intros frame env. split.
    + intros H. apply (speech_step _ _ _ H).
    + apply silence_zeroes_speech.
Qed.

End Facts.

(** C6 on the configured detector and an empty frame. *)
Lemma process_frame_rejects_wrong_length_witness :
  len [] <> frame_size Scenario.detector
  /\ process_frame Scenario.detector [] Scenario.voiced
     = mkFrameResult Scenario.detector false None.
Proof.
  assert (H : len [] <> frame_size Scenario.detector) by (vm_compute; discriminate).
  split; [exact H | ].
  exact (process_frame_rejects_wrong_length Scenario.detector [] Scenario.voiced H).
Defined.

(** C9 on the configured detector and a full frame. *)
Lemma process_frame_classifier_failure_witness :
  process_frame Scenario.detector Scenario.frame Scenario.broken
  = mkFrameResult Scenario.detector false None.
Proof.
  refine (proj1 (process_frame_classifier_failure Scenario.detector
                   Scenario.frame Scenario.broken _ _)).
  - vm_compute. reflexivity.
  - reflexivity.
Defined.

(** C4 on the configured detector: three speech frames confirm speech,
    two silence frames after them leave the timer unset, and the third
    one, read at instant 10, starts it. *)
Lemma hysteresis_witness :
  let s := fst (feed Scenario.detector
                  [(Scenario.frame, Scenario.voiced);
                   (Scenario.frame, Scenario.voiced);
                   (Scenario.frame, Scenario.voiced)]) in
  (is_speaking s = true /\ speech_detected s = true /\ silence_start s = None)
  /\ silence_start
       (fst (feed s [(Scenario.frame, Scenario.quiet 10);
                     (Scenario.frame, Scenario.quiet 10)])) = None
  /\ silence_start
       (after (process_frame
                 (fst (feed s [(Scenario.frame, Scenario.quiet 10);
                               (Scenario.frame, Scenario.quiet 10)]))
                 Scenario.frame (Scenario.quiet 10))) = Some 10%Q
  /\ is_speaking
       (fst (feed (reset Scenario.detector)
               [(Scenario.frame, Scenario.voiced);
                (Scenario.frame, Scenario.voiced);
                (Scenario.frame, Scenario.quiet 10)])) = false.
Proof.
  pose proof (hysteresis Config.SAMPLE_RATE Config.FRAME_DURATION_MS
                Config.SILENCE_THRESHOLD_SECONDS
                [op_set_silence_callback
                   Conversation.on_silence_detected_method])
    as (H1 & H2 & _).
  change (apply_ops _ _) with Scenario.detector in H1, H2.
  destruct (H2 Scenario.frame Scenario.voiced Scenario.frame Scenario.voiced
              Scenario.frame Scenario.voiced eq_refl eq_refl eq_refl)
    as (A & B & T & K).
  destruct (K Scenario.frame (Scenario.quiet 10) Scenario.frame
              (Scenario.quiet 10) Scenario.frame (Scenario.quiet 10)
              eq_refl eq_refl eq_refl)
    as (_ & T2 & _ & K3).
  destruct (H1 Scenario.frame Scenario.voiced Scenario.frame Scenario.voiced
              Scenario.frame (Scenario.quiet 10) eq_refl eq_refl eq_refl)
    as (N & _).
  cbv zeta. split; [exact (conj A (conj B T)) | ].
  split; [exact T2 | ]. split; [exact (proj1 K3) | exact N].
Defined.

(** C5 on a detector whose confirmed silence began at instant 10: a
    silence frame read at instant 11 calls the registered method and
    resets the detector. *)
Lemma silence_callback_once_per_episode_witness :
  process_frame Scenario.silent_since_10 Scenario.frame (Scenario.quiet 11)
  = mkFrameResult (reset Scenario.silent_since_10) false
      (Some Conversation.on_silence_detected_method).
Proof.
  destruct (silence_callback_once_per_episode Scenario.silent_since_10)
    as (_ & H & _).
  refine (H Scenario.frame (Scenario.quiet 11) 10%Q eq_refl eq_refl eq_refl _).
  vm_compute. discriminate.
Defined.

(** C10 on a detector built with the configured settings and used for
    a while: a speech frame zeroes the silence counter. *)
Lemma counters_never_both_nonzero_witness :
  let self := apply_ops
                (init Conversation.BoundMethod Config.SAMPLE_RATE
                   Config.FRAME_DURATION_MS Config.SILENCE_THRESHOLD_SECONDS)
                Scenario.history in
  (consecutive_speech self = 0%nat \/ consecutive_silence self = 0%nat)
  /\ consecutive_silence
       (after (process_frame self Scenario.frame Scenario.voiced)) = 0%nat.
Proof.
  pose proof (counters_never_both_nonzero Config.SAMPLE_RATE
                Config.FRAME_DURATION_MS Config.SILENCE_THRESHOLD_SECONDS
                Scenario.history) as H.
  cbv zeta in H. cbv zeta. destruct H as (H1 & H2).
  split; [exact H1 | ].
  apply (proj1 (H2 Scenario.frame Scenario.voiced)).
  vm_compute. reflexivity.
Defined.

End VadFacts.

(* ===================================================================== *)
(** ** Properties of strings *)
(* ===================================================================== *)

Module StrFacts.

Import Str.

Lemma lstrip_fixed s : first_is_space s = false -> lstrip s = s.
Proof.
  destruct s as [ | c rest]; cbn; [reflexivity | ].
  intros ->. reflexivity.
Qed.

Lemma rstrip_fixed s : last_is_space s = false -> rstrip s = s.
Proof.
  induction s as [ | c rest IH]; [reflexivity | ].
  destruct rest as [ | c' rest'].
  - cbn. intros ->. reflexivity.
  - intros H. change (last_is_space (String c (String c' rest')))
      with (last_is_space (String c' rest')) in H.
    specialize (IH H).
    change (rstrip (String c (String c' rest')))
      with (match rstrip (String c' rest') with
            | EmptyString => if isspace c then EmptyString else String c EmptyString
            | kept => String c kept
            end).
    rewrite IH. reflexivity.
Qed.

(** [strip] changes nothing in a string that neither begins nor ends
    with whitespace. *)
Lemma strip_fixed s :
  first_is_space s = false -> last_is_space s = false -> strip s = s.
Proof.
  intros H1 H2. unfold strip. rewrite (lstrip_fixed s H1). apply rstrip_fixed, H2.
Qed.

End StrFacts.

(* ===================================================================== *)
(** ** Properties of the conversation manager *)
(* ===================================================================== *)

Module ConversationFacts.

Import Vad Conversation Scenario.

Local Open Scope string_scope.
Local Open Scope list_scope.

(** *** The frame loop comes to an end *)

Lemma vad_process_frame_audio_buffer frame env w :
  audio_buffer (self (vad_process_frame frame env w)) = audio_buffer (self w).
Proof.
  unfold vad_process_frame.
  destruct (called _) as [[] | ]; [ | reflexivity].
  unfold _on_silence_detected. cbn.
  destruct (Str.truthy _ && _ && _); reflexivity.
Qed.

Lemma slice_from_shorter frame_size b :
  (0 < frame_size)%Z -> (frame_size <= len b)%Z ->
  (List.length (slice_from frame_size b) < List.length b)%nat.
Proof.
  intros Hpos Hle. unfold slice_from, slice_index, len in *.
  destruct (Z.ltb_spec frame_size 0) as [Hneg | _]; [lia | ].
  rewrite length_skipn. lia.
Qed.

Lemma drain_returns frame_size frames fuel : forall seen w,
  (0 < frame_size)%Z ->
  (List.length (audio_buffer (self w)) < fuel)%nat ->
  exists w', drain fuel frame_size frames seen w = Some w'.
Proof.
  induction fuel as [ | fuel IH]; intros seen w Hpos Hlen; [lia | ].
  cbn [drain].
  destruct (Z.geb_spec (len (audio_buffer (self w))) frame_size) as [Hge | Hlt].
  - apply IH; [exact Hpos | ].
    rewrite vad_process_frame_audio_buffer. cbn [update self audio_buffer with_audio_buffer].
    pose proof (@slice_from_shorter frame_size (audio_buffer (self w)) Hpos) as Hs.
    lia.
  - eexists. reflexivity.
Qed.

Lemma drain_never_returns frame_size frames fuel : forall seen w,
  (frame_size <= 0)%Z ->
  drain fuel frame_size frames seen w = None.
Proof.
  induction fuel as [ | fuel IH]; intros seen w Hneg; cbn [drain];
    (destruct (Z.geb_spec (len (audio_buffer (self w))) frame_size) as [Hge | Hlt];
     [ | unfold len in Hlt; lia]).
  - reflexivity.
  - apply IH, Hneg.
Qed.

(** With a positive frame size [process_audio_chunk] comes to an end. *)
Lemma process_audio_chunk_ends audio_data env w :
  (0 < frame_size (vad (self w)))%Z ->
  process_audio_chunk audio_data env w <> Diverge.
Proof.
  intros Hpos. unfold process_audio_chunk.
  destruct (interview_active (self w)); cbn [negb]; [ | discriminate].
  destruct (Utils.is_expired _ _).
  { unfold _end_interview. destruct (negb _); [discriminate | ].
    destruct (closing_audio _); discriminate. }
  cbn [call self]. destruct (is_ai_speaking (self w)); [discriminate | ].
  match goal with
  | |- context [drain ?f ?s ?fr ?n ?x] =>
      destruct (@drain_returns s fr f n x) as (w' & ->)
  end.
  - exact Hpos.
  - lia.
  - discriminate.
Qed.

(** *** What feeding the detector leaves alone *)

Lemma detector_only_refl w : detector_only w w.
Proof. repeat split. Qed.

Lemma detector_only_trans w1 w2 w3 :
  detector_only w1 w2 -> detector_only w2 w3 -> detector_only w1 w3.
Proof. unfold detector_only. intuition congruence. Qed.

Lemma on_silence_detected_detector_only w :
  detector_only w (_on_silence_detected w).
Proof.
  unfold _on_silence_detected.
  destruct (Str.truthy _ && _ && _); [ | apply detector_only_refl].
  repeat split. cbn. rewrite filter_app. cbn. apply app_nil_r.
Qed.

Lemma vad_process_frame_detector_only frame env w :
  detector_only w (vad_process_frame frame env w).
Proof.
  unfold vad_process_frame.
  set (r := process_frame (vad (self w)) frame env).
  destruct (called r) as [[] | ].
  - eapply detector_only_trans; [ | apply on_silence_detected_detector_only].
    repeat split.
  - repeat split.
Qed.

Lemma drain_detector_only fuel frame_size frames : forall seen w w',
  drain fuel frame_size frames seen w = Some w' -> detector_only w w'.
Proof.
  induction fuel as [ | fuel IH]; intros seen w w'; cbn [drain].
  - destruct (len (audio_buffer (self w)) >=? frame_size)%Z; [discriminate | ].
    intros [= <-]. apply detector_only_refl.
  - destruct (len (audio_buffer (self w)) >=? frame_size)%Z.
    + intros H. apply IH in H.
      eapply detector_only_trans; [ | exact H].
      eapply detector_only_trans; [ | apply vad_process_frame_detector_only].
      repeat split.
    + intros [= <-]. apply detector_only_refl.
Qed.

(** *** An ended session stays ended *)




(** *** The single-flight flag *)

(** Entered while the flag is set, [_generate_and_send_response]
    returns at once and changes nothing. *)
Lemma generate_while_in_progress env w :
  response_in_progress (self w) = true ->
  _generate_and_send_response env w = w.
Proof. intros H. unfold _generate_and_send_response. rewrite H. reflexivity. Qed.

(** A silence notification is ignored while a generation is in
    flight or the reply is being played. *)
Lemma silence_while_in_progress w :
  response_in_progress (self w) = true \/ is_ai_speaking (self w) = true ->
  _on_silence_detected w = w.
Proof.
  intros [H | H]; unfold _on_silence_detected; rewrite H;
    cbn; rewrite ?andb_false_r; reflexivity.
Qed.

Lemma in_flight_split w :
  in_flight w
  = (List.length (filter is_sending (ready w))
     + List.length (filter is_sending (waiting w)))%nat.
Proof. unfold in_flight. rewrite filter_app, length_app. reflexivity. Qed.

Lemma detector_only_single_flight w w' :
  detector_only w w' -> single_flight w -> single_flight w'.
Proof.
  intros (_ & Hr & _ & _ & Hw & _ & _ & Hf). unfold single_flight.
  rewrite !in_flight_split, Hr, Hw, Hf. exact (fun H => H).
Qed.

Lemma take_out_filter {A : Type} (f : A -> bool) n : forall (l rest : list A) t,
  take_out n l = Some (t, rest) ->
  List.length (filter f l)
  = (b2n (f t) + List.length (filter f rest))%nat.
Proof.
  induction n as [ | n IH]; intros [ | x l] rest t; cbn; try discriminate.
  - intros [= <- <-]. destruct (f x); reflexivity.
  - destruct (take_out n l) as [[y rest'] | ] eqn:E; [ | discriminate].
    intros [= <- <-]. apply IH in E. cbn.
    destruct (f x); cbn; rewrite E; lia.
Qed.

Lemma step_single_flight e w w' :
  single_flight w ->
  step e w = Return w' \/ step e w = Raise w' ->
  single_flight w'.
Proof.
  intros I. destruct e as [audio_data env | msg_type | transcript | | env | n];
    cbn [step].
  - unfold process_audio_chunk.
    destruct (interview_active (self w)) eqn:Hact; cbn [negb].
    2:{ intros [[= <-] | H]; [exact I | discriminate]. }
    destruct (Utils.is_expired _ _).
    { unfold _end_interview. rewrite Hact. cbn [negb].
      destruct (closing_audio (chunk_closing env)) as [a | ].
      - intros [[= <-] | H]; [ | discriminate].
        destruct (websocket _); exact I.
      - intros [H | [= <-]]; [discriminate | ]. exact I. }
    cbn [call self]. destruct (is_ai_speaking (self w)).
    { intros [[= <-] | H]; [exact I | discriminate]. }
    match goal with
    | |- context [drain ?f ?s ?fr ?n ?x] =>
        destruct (drain f s fr n x) as [w1 | ] eqn:D
    end.
    2:{ intros [H | H]; discriminate. }
    intros [[= <-] | H]; [ | discriminate].
    apply drain_detector_only in D.
    eapply detector_only_single_flight; [exact D | exact I].
  - intros [[= <-] | H]; [ | discriminate]. unfold handle_websocket_message.
    destruct (msg_type =? "stop")%string; [exact I | ].
    destruct (msg_type =? "ai_audio_completed")%string; exact I.
  - intros [[= <-] | H]; [ | discriminate]. unfold _on_transcript_received.
    destruct (Str.truthy transcript); [ | exact I].
    destruct (is_ai_speaking (self w)); [ | exact I].
    unfold single_flight in *. rewrite in_flight_split in *. cbn.
    rewrite filter_app, length_app. cbn. lia.
  - intros [[= <-] | H]; [exact I | discriminate].
  - intros [[= <-] | H]; [ | discriminate]. unfold run_next.
    unfold single_flight in I. rewrite in_flight_split in I.
    destruct (ready w) as [ | t rest] eqn:R;
      [unfold single_flight; rewrite in_flight_split, R; exact I | ].
    unfold single_flight. rewrite in_flight_split.
    destruct t; cbn [run_task].
    + unfold _generate_and_send_response. cbn [self]. cbn in I.
      destruct (response_in_progress (self w)) eqn:P;
        [cbn; rewrite P; exact I | ].
      cbn in I. cbn.
      destruct (speech env); [ | cbn; exact I].
      destruct (websocket (self w)); [ | cbn; exact I].
      destruct (send_suspends env); cbn; [ | exact I].
      rewrite filter_app, length_app. cbn. lia.
    + cbn in *. destruct (response_in_progress (self w)); cbn in *; lia.
    + unfold _handle_interruption. cbn.
      destruct (websocket (self w)); [ | cbn; exact I].
      destruct (send_suspends env); cbn; [ | exact I].
      rewrite filter_app, length_app. cbn. cbn in I. lia.
    + exact I.
  - intros [[= <-] | H]; [ | discriminate]. unfold wake.
    destruct (take_out n (waiting w)) as [[t rest] | ] eqn:T; [ | exact I].
    unfold single_flight in *. rewrite in_flight_split in *. cbn.
    rewrite (@take_out_filter _ is_sending n _ _ _ T) in I.
    rewrite filter_app, length_app. cbn.
    destruct (is_sending t); cbn in *; lia.
Qed.

Lemma steps_single_flight es : forall w w',
  single_flight w ->
  steps es w = Return w' \/ steps es w = Raise w' ->
  single_flight w'.
Proof.
  induction es as [ | e es IH]; intros w w' I; cbn [steps].
  - intros [[= <-] | H]; [exact I | discriminate].
  - destruct (step e w) as [w1 | w1 | ] eqn:S.
    + apply IH. eapply step_single_flight; [exact I | left; exact S].
    + intros [H | [= <-]]; [discriminate | ].
      eapply step_single_flight; [exact I | right; exact S].
    + intros [H | H]; discriminate.
Qed.

Lemma boot_single_flight candidate_name role :
  single_flight (boot candidate_name role).
Proof. reflexivity. Qed.

Lemma start_interview_single_flight env w w' :
  single_flight w ->
  fst (start_interview env w) = Return w' \/ fst (start_interview env w) = Raise w' ->
  single_flight w'.
Proof.
  intros I. unfold start_interview.
  destruct (greeting_text env) as [t | ]; cbn [fst].
  - destruct (greeting_audio env) as [a | ]; cbn [fst].
    + destruct (stream_opened env); cbn [fst];
        intros [[= <-] | [= <-]]; exact I.
    + intros [[= <-] | [= <-]]; exact I.
  - intros [[= <-] | [= <-]]; exact I.
Qed.

(** X11. From the constructor on, at most one generation is past the
    guard at any time. *)
Lemma at_most_one_in_flight candidate_name role env es w w' :
  fst (start_interview env (boot candidate_name role)) = Return w ->
  steps es w = Return w' \/ steps es w = Raise w' ->
  (in_flight w' <= 1)%nat.
Proof.
  intros Hs He.
  assert (I : single_flight w').
  { eapply steps_single_flight; [ | exact He].
    eapply start_interview_single_flight; [apply boot_single_flight | ].
    left. exact Hs. }
  unfold single_flight in I. rewrite I.
  destruct (response_in_progress (self w')); cbn; lia.
Qed.

(** *** The claims *)

(** C7.  While [is_ai_speaking] is set, the session is active and the
    timer has not expired, any sequence of [process_audio_chunk] calls
    returns, hands every chunk to the recognizer in order, and changes
    nothing else: the manager, with its [audio_buffer] and its detector,
    is the same object state as before. *)
Theorem audio_while_ai_speaking w chunks :
  is_ai_speaking (self w) = true ->
  interview_active (self w) = true ->
  Forall (fun c => Utils.is_expired (chunk_now (snd c)) (timer (self w)) = false)
         chunks ->
  steps (audio_chunks chunks) w
  = Return (mkWorld (self w) (ready w) (waiting w) (sent w)
              (calls w ++ map (fun c => recognizer_send_audio (fst c)) chunks)).
Proof.
  intros Hai Hact Hall. revert w Hai Hact Hall.
  induction chunks as [ | [audio_data env] chunks IH]; intros w Hai Hact Hall.
  - cbn. rewrite app_nil_r. destruct w; reflexivity.
  - inversion Hall as [ | c cs Hc Hcs]; subst. cbn in Hc.
    cbn [audio_chunks map steps step fst snd].
    unfold process_audio_chunk. rewrite Hact, Hc. cbn [negb].
    cbn [call self]. rewrite Hai.
    fold (audio_chunks chunks).
    rewrite (IH (call (recognizer_send_audio audio_data) w) Hai Hact Hcs).
    cbn [call self ready waiting sent calls fst]. rewrite <- app_assoc. reflexivity.
Qed.

(** C7 on a started session and two chunks. *)
Lemma audio_while_ai_speaking_witness :
  steps (audio_chunks [(utterance, utterance_env 10); (utterance, utterance_env 20)]) started
  = Return (mkWorld (self started) (ready started) (waiting started) (sent started)
              (calls started ++ [recognizer_send_audio utterance; recognizer_send_audio utterance])).
Proof.
  apply (@audio_while_ai_speaking started
           [(utterance, utterance_env 10); (utterance, utterance_env 20)]).
  - reflexivity.
  - reflexivity.
  - repeat constructor.
Defined.

(** C2, as stated, fails: the transcript " hi" arrives while the
    greeting is played; the handler emits one [stop_ai_audio], but the
    pending speech becomes "hi", not the transcript itself. *)
Lemma interruption_not_verbatim :
  is_ai_speaking (self started) = true
  /\ exists w,
       steps [transcript_received " hi"; loop_runs_next answer] started = Return w
       /\ sent w = sent started ++ [stop_ai_audio]
       /\ current_user_speech (self w) = "hi"
       /\ current_user_speech (self w) <> " hi".
Proof.
  split; [reflexivity | ].
  eexists. split; [vm_compute; reflexivity | ].
  split; [reflexivity | ]. split; [reflexivity | ].
  cbn. discriminate.
Qed.

(** C2, amended.  A non-empty transcript that arrives while
    [is_ai_speaking] is set creates one [_handle_interruption] task and
    changes nothing else.  With a websocket attached the task emits
    exactly one [stop_ai_audio] and clears [is_ai_speaking] before its
    await; after the await, whatever happened meanwhile, it resets the
    detector and replaces the pending speech by the transcript with
    leading and trailing whitespace stripped, which is the transcript
    itself when it neither begins nor ends with whitespace. *)
Theorem interruption_replaces_pending_speech w transcript :
  is_ai_speaking (self w) = true ->
  Str.truthy transcript = true ->
  _on_transcript_received transcript w
  = create_task (handle_interruption_created transcript) w
  /\ (forall w1 suspends,
        websocket (self w1) = true ->
        let w2 := _handle_interruption transcript suspends w1 in
        sent w2 = sent w1 ++ [stop_ai_audio]
        /\ is_ai_speaking (self w2) = false
        /\ if suspends
           then waiting w2 = waiting w1 ++ [handle_interruption_sending transcript]
                /\ ready w2 = ready w1
           else vad (self w2) = reset (vad (self w1))
                /\ current_user_speech (self w2) = Str.strip transcript
                /\ ready w2 = ready w1 /\ waiting w2 = waiting w1)
  /\ (forall w3,
        let w4 := _handle_interruption_sent transcript w3 in
        sent w4 = sent w3
        /\ is_ai_speaking (self w4) = is_ai_speaking (self w3)
        /\ vad (self w4) = reset (vad (self w3))
        /\ current_user_speech (self w4) = Str.strip transcript)
  /\ (Str.first_is_space transcript = false ->
      Str.last_is_space transcript = false ->
      Str.strip transcript = transcript).
Proof.
  intros Hai Ht. split; [ | split; [ | split]].
  - unfold _on_transcript_received. rewrite Ht, Hai. reflexivity.
  - intros w1 suspends Hws. unfold _handle_interruption.
    cbn [update self with_is_ai_speaking websocket]. rewrite Hws.
    destruct suspends; cbn; repeat split; reflexivity.
  - intros w3. cbn. repeat split; reflexivity.
  - apply StrFacts.strip_fixed.
Qed.

(** C2, amended, on the started session and the transcript " hi". *)
Lemma interruption_replaces_pending_speech_witness :
  _on_transcript_received " hi" started
  = create_task (handle_interruption_created " hi") started
  /\ current_user_speech (self (_handle_interruption " hi" false started)) = "hi".
Proof.
  destruct (@interruption_replaces_pending_speech started " hi" eq_refl eq_refl)
    as (H1 & H2 & _).
  split; [exact H1 | ].
  destruct (H2 started false eq_refl) as (_ & _ & _ & H & _).
  exact H.
Defined.

(** C1, as stated, fails: the candidate has spoken and gone silent, so
    a generation task is ready; [stop] is called before the event loop
    runs it; the task then emits an [ai_response] although
    [interview_active] is false when it does. *)
Lemma ai_response_after_stop :
  exists w w',
    steps (spoken ++ [stop_called]) started = Return w
    /\ interview_active (self w) = false
    /\ ready w = [generate_and_send_response_created]
    /\ step (loop_runs_next answer) w = Return w'
    /\ interview_active (self w') = false
    /\ sent w' = sent w ++ [ai_response "Tell me more."
                              (Utils.encode_audio_to_base64 reply_sound)].
Proof.
  eexists. eexists.
  split; [vm_compute; reflexivity | ].
  split; [reflexivity | ]. split; [reflexivity | ].
  split; [vm_compute; reflexivity | ].
  split; reflexivity.
Qed.

(** C1, amended.  Not every emission point looks at
    [interview_active].  [_generate_and_send_response] does not: it
    emits the same payloads whatever the flag is, one [ai_response] when
    no generation is in progress, a websocket is attached and the
    synthesis succeeds, nothing otherwise.  [_handle_interruption] does
    not either: it emits one [stop_ai_audio] exactly when a websocket is
    attached, whatever the flag is.  [_end_interview] does: it always
    ends, by returning or by raising, with the flag false, and it emits
    one [interview_end] exactly when the session is active on entry, a
    websocket is attached and the synthesis of the closing succeeds,
    nothing otherwise; on an inactive session it emits nothing. *)
Theorem emissions_and_active_flag w env active :
  sent (_generate_and_send_response env (update (with_interview_active active) w))
  = sent (_generate_and_send_response env w)
  /\ sent (_generate_and_send_response env w)
     = match speech env with
       | Some ai_audio =>
           if negb (response_in_progress (self w)) && websocket (self w)
           then sent w ++ [ai_response (reply env)
                             (Utils.encode_audio_to_base64 ai_audio)]
           else sent w
       | None => sent w
       end
  /\ (forall first_transcript suspends,
        sent (_handle_interruption first_transcript suspends
                (update (with_interview_active active) w))
        = sent (_handle_interruption first_transcript suspends w)
        /\ sent (_handle_interruption first_transcript suspends w)
           = if websocket (self w) then sent w ++ [stop_ai_audio] else sent w)
  /\ (forall closing,
        exists w',
          (_end_interview closing w = Return w'
           \/ _end_interview closing w = Raise w')
          /\ interview_active (self w') = false
          /\ sent w'
             = match closing_audio closing with
               | Some closing_audio =>
                   if interview_active (self w) && websocket (self w)
                   then sent w ++ [interview_end (closing_text closing)
                                     (Utils.encode_audio_to_base64 closing_audio)]
                   else sent w
               | None => sent w
               end)
  /\ (forall closing,
        _end_interview closing (update (with_interview_active false) w)
        = Return (update (with_interview_active false) w)).
Proof.
  split; [ | split; [ | split; [ | split]]].
  - unfold _generate_and_send_response. cbn.
    destruct (response_in_progress (self w)); [reflexivity | ].
    destruct (speech env); [ | reflexivity].
    destruct (websocket (self w)); [ | reflexivity].
    destruct (send_suspends env); reflexivity.
  - unfold _generate_and_send_response. cbn.
    destruct (response_in_progress (self w)); cbn;
      [destruct (speech env); reflexivity | ].
    destruct (speech env); [ | reflexivity].
    destruct (websocket (self w)); [ | reflexivity].
    destruct (send_suspends env); reflexivity.
  - intros first_transcript suspends. unfold _handle_interruption. cbn.
    destruct (websocket (self w)); [ | split; reflexivity].
    destruct suspends; split; reflexivity.
  - intros closing. unfold _end_interview.
    destruct (interview_active (self w)) eqn:Hact; cbn.
    + destruct (closing_audio closing) as [a | ].
      * destruct (websocket (self w)); eexists;
          (split; [left; reflexivity | split; reflexivity]).
      * eexists. split; [right; reflexivity | split; reflexivity].
    + exists w. split; [left; reflexivity | ].
      split; [exact Hact | destruct (closing_audio closing); reflexivity].
  - intros closing. reflexivity.
Qed.

(** C1, amended, on the session stopped before its generation task has
    run: the task emits what it would emit in the active session, while
    [_end_interview] emits its one [interview_end] in the active session
    and nothing in the stopped one. *)
Lemma emissions_and_active_flag_witness :
  sent (_generate_and_send_response answer
          (update (with_interview_active false) started))
  = sent (_generate_and_send_response answer started)
  /\ sent (_generate_and_send_response answer started)
     = sent started ++ [ai_response "Tell me more."
                          (Utils.encode_audio_to_base64 reply_sound)]
  /\ (exists w',
        (_end_interview farewell started = Return w'
         \/ _end_interview farewell started = Raise w')
        /\ interview_active (self w') = false
        /\ sent w'
           = sent started ++ [interview_end (closing_text farewell)
                                (Utils.encode_audio_to_base64 [x04])])
  /\ _end_interview farewell (update (with_interview_active false) started)
     = Return (update (with_interview_active false) started).
Proof.
  destruct (emissions_and_active_flag started answer false)
    as (H1 & H2 & _ & H4 & H5).
  split; [exact H1 | ]. split; [exact H2 | ].
  split; [exact (H4 farewell) | exact (H5 farewell)].
Defined.

(** C3 fails on the code.  Two utterances are heard before the event
    loop runs the task created for the first: both silence notifications
    pass the test of [_on_silence_detected], since the flag is only set
    when a task starts, and two tasks are ready.  When the first task ends
    before the second one starts (its [send_json] finishes at once, or its
    synthesis raises), the second one finds the flag cleared and runs a
    whole generation: the language service is called twice, the second
    time on an empty utterance.  Only when the first task is still waiting
    at its send does the second one return at once. *)
Theorem two_notifications_two_generations :
  exists w0,
    steps spoken_twice started = Return w0
    /\ ready w0 = [generate_and_send_response_created;
                   generate_and_send_response_created]
    /\ generate_response_calls w0 = 0%nat
    /\ ai_responses w0 = 0%nat
    /\ (exists w,
          steps [loop_runs_next answer; loop_runs_next answer] w0 = Return w
          /\ generate_response_calls w = 2%nat /\ ai_responses w = 2%nat)
    /\ (exists w,
          steps [loop_runs_next synthesis_fails; loop_runs_next answer] w0
          = Return w
          /\ generate_response_calls w = 2%nat /\ ai_responses w = 1%nat)
    /\ (exists w,
          steps [loop_runs_next answer_suspending; loop_runs_next answer;
                 send_finished 0; loop_runs_next answer] w0 = Return w
          /\ generate_response_calls w = 1%nat /\ ai_responses w = 1%nat).
Proof.
  eexists. split; [vm_compute; reflexivity | ].
  split; [reflexivity | ]. split; [reflexivity | ]. split; [reflexivity | ].
  split; [ | split].
  - eexists. split; [vm_compute; reflexivity | ]. split; reflexivity.
  - eexists. split; [vm_compute; reflexivity | ]. split; reflexivity.
  - eexists. split; [vm_compute; reflexivity | ]. split; reflexivity.
Qed.




End ConversationFacts.
(* ===================================================================== *)
(** ** Properties of the interview timer *)
(* ===================================================================== *)

Module UtilsFacts.

Import Utils.

Lemma max0_nonneg x : (0 <= max0 x)%Q.
Proof.
  unfold max0. destruct (Qle_bool x 0) eqn:E; [apply Qle_refl | ].
  apply Qnot_lt_le. intros H. apply Qlt_le_weak, Qle_bool_iff in H. congruence.
Qed.

Lemma int_floor x : (0 <= x)%Q -> int x = Qfloor x.
Proof.
  intros H. unfold int. destruct x as [n d]. cbn.
  unfold Qle in H. cbn in H. apply Z.quot_div_nonneg; lia.
Qed.

Lemma int_nonneg x : (0 <= x)%Q -> (0 <= int x)%Z.
Proof.
  intros H. rewrite (int_floor H).
  change 0%Z with (Qfloor 0). apply Qfloor_resp_le, H.
Qed.

Lemma int_le x (n : Z) : (0 <= x)%Q -> (x <= inject_Z n)%Q -> (int x <= n)%Z.
Proof.
  intros H0 H. rewrite (int_floor H0).
  rewrite <- (Qfloor_Z n). apply Qfloor_resp_le, H.
Qed.

Lemma int_zero x : (0 <= x)%Q -> (int x = 0%Z <-> (x < 1)%Q).
Proof.
  intros H. rewrite (int_floor H). split.
  - intros E. pose proof (Qlt_floor x) as L. rewrite E in L. exact L.
  - intros L.
    assert (L0 : (0 <= Qfloor x)%Z)
      by (change 0%Z with (Qfloor 0); apply Qfloor_resp_le, H).
    assert (L1 : (Qfloor x < 1)%Z).
    { rewrite Zlt_Qlt. apply Qle_lt_trans with (y := x); [apply Qfloor_le | exact L]. }
    lia.
Qed.

(** X1. Once [is_expired] answers [True], [remaining_seconds] read at
    the same instant is 0. *)
Theorem expired_timer_has_no_time_left now self :
  is_expired now self = true ->
  remaining_seconds now self = 0%Z.
Proof.
  unfold is_expired, remaining_seconds.
  destruct (start_time self) as [started | ]; [ | discriminate].
  intros H. apply Qle_bool_iff in H.
  unfold max0.
  destruct (Qle_bool (inject_Z (duration_seconds self) - (now - started)) 0) eqn:E.
  - reflexivity.
  - assert (L : (inject_Z (duration_seconds self) - (now - started) <= 0)%Q) by lra.
    apply Qle_bool_iff in L. congruence.
Qed.

(** X1 on the timer of a session started at instant 0, read ten minutes
    later. *)
Lemma expired_timer_has_no_time_left_witness :
  remaining_seconds 600 Samples.running_timer = 0%Z.
Proof.
  apply expired_timer_has_no_time_left. vm_compute. reflexivity.
Defined.

(** X2. On a started timer [remaining_seconds] is never negative; read
    no earlier than the start, of a duration that is not negative, it is
    at most the duration; and it is 0 exactly when less than one second
    is left, so also during the last second before the expiry. *)
Theorem remaining_seconds_bounds now self started :
  start_time self = Some started ->
  (0 <= remaining_seconds now self)%Z
  /\ ((started <= now)%Q -> (0 <= duration_seconds self)%Z ->
      (remaining_seconds now self <= duration_seconds self)%Z)
  /\ (remaining_seconds now self = 0%Z
      <-> (inject_Z (duration_seconds self) - (now - started) < 1)%Q).
Proof.
  intros Hs. split; [ | split].
  - unfold remaining_seconds. rewrite Hs. apply int_nonneg, max0_nonneg.
  - intros Hle Hd. unfold remaining_seconds. rewrite Hs.
    apply int_le; [apply max0_nonneg | ].
    unfold max0. destruct (Qle_bool _ 0).
    + change 0%Q with (inject_Z 0). rewrite <- Zle_Qle. exact Hd.
    + lra.
  - unfold remaining_seconds. rewrite Hs. cbv zeta.
    rewrite (int_zero (max0_nonneg _)). unfold max0.
    destruct (Qle_bool (inject_Z (duration_seconds self) - (now - started)) 0)
      eqn:E; [ | tauto].
    apply Qle_bool_iff in E. split; intros _; lra.
Qed.

(** X2 on the same timer, read half a second before the ten minutes are
    over. *)
Lemma remaining_seconds_bounds_witness :
  remaining_seconds (1199 # 2) Samples.running_timer = 0%Z.
Proof.
  apply (remaining_seconds_bounds (1199 # 2) Samples.running_timer (started := 0) eq_refl).
  vm_compute. reflexivity.
Defined.

(** X3. A timer that has expired stays expired at every later
    instant. *)
Theorem expiry_is_final now now' self :
  is_expired now self = true ->
  (now <= now')%Q ->
  is_expired now' self = true.
Proof.
  unfold is_expired. destruct (start_time self) as [started | ]; [ | discriminate].
  intros H Hle. apply Qle_bool_iff in H. apply Qle_bool_iff. lra.
Qed.

(** X3 on the same timer. *)
Lemma expiry_is_final_witness :
  is_expired 700 Samples.running_timer = true.
Proof.
  apply (@expiry_is_final 600 700 Samples.running_timer).
  - vm_compute. reflexivity.
  - vm_compute. discriminate.
Defined.

End UtilsFacts.

(* ===================================================================== *)
(** ** More properties of the detector *)
(* ===================================================================== *)

Module VadFlagFacts.

Import Vad VadFacts.

Section Facts.

Variable Callable : Type.
Implicit Type self : VoiceActivityDetector Callable.

Lemma process_frame_flags_agree self frame env :
  flags_agree self -> flags_agree (after (process_frame self frame env)).
Proof.
  unfold flags_agree, process_frame.
  destruct self as [sr fd th fs sp ss sd cs cp sil spp cb]; step.
  intros [H1 H2]. destruct sd.
  all: split_cases; step; (split;
    [first [assumption | reflexivity]
    | first [assumption | intros; reflexivity | intros; congruence
            | intros ?; apply H2; congruence]]).
Qed.

Lemma apply_ops_flags_agree ops : forall self,
  flags_agree self -> flags_agree (apply_ops self ops).
Proof.
  induction ops as [ | o ops IH]; intros self H; [exact H | ].
  cbn. apply IH. destruct o as [frame env | | callback]; cbn.
  - apply process_frame_flags_agree, H.
  - split; [reflexivity | intros H'; cbn in H'; congruence].
  - exact H.
Qed.

(** X4. In every detector reachable from the constructor,
    [is_speaking] and [speech_detected] have the same value, and
    [silence_start] is set only while [speech_detected] is [True]. *)
Theorem speaking_flags_agree sample_rate frame_duration_ms threshold ops :
  let self := apply_ops (init Callable sample_rate frame_duration_ms threshold) ops in
  is_speaking self = speech_detected self
  /\ (silence_start self <> None -> speech_detected self = true).
Proof.
  cbv zeta. apply apply_ops_flags_agree.
  split; [reflexivity | intros H; cbn in H; congruence].
Qed.

(** X5. Fewer than [speech_padding_frames] speech frames in a running
    silence episode do not stop its timer: after one or two speech
    frames [silence_start] is what it was, and the next silence frame
    whose clock reading is [silence_threshold_seconds] past it calls the
    callback and resets the detector, although the silence counter had
    gone back to 0. *)
Theorem flicker_keeps_silence_timer sample_rate frame_duration_ms threshold ops
    started f1 e1 f2 e2 f3 e3 :
  let self := apply_ops (init Callable sample_rate frame_duration_ms threshold) ops in
  silence_start self = Some started ->
  consecutive_speech self = 0%nat ->
  speech_frame self f1 e1 = true ->
  speech_frame self f2 e2 = true ->
  silence_frame self f3 e3 = true ->
  (threshold <= clock_check e3 - started)%Q ->
  silence_start (fst (feed self [(f1, e1)])) = Some started
  /\ silence_start (fst (feed self [(f1, e1); (f2, e2)])) = Some started
  /\ consecutive_silence (fst (feed self [(f1, e1); (f2, e2)])) = 0%nat
  /\ process_frame (fst (feed self [(f1, e1); (f2, e2)])) f3 e3
     = mkFrameResult (reset self) false (on_silence_detected self).
Proof.
  intros self Hss Hcp H1 H2 H3 Hq.
  pose proof (apply_ops_same_settings ops
                (init Callable sample_rate frame_duration_ms threshold))
    as (_ & _ & Hth & _ & _ & Hsp).
  fold self in Hth, Hsp. cbn in Hth, Hsp.
  assert (Hsd : speech_detected self = true).
  { apply (apply_ops_flags_agree ops
             (self := init Callable sample_rate frame_duration_ms threshold)).
    - split; [reflexivity | intros H; cbn in H; congruence].
    - fold self. congruence. }
  rewrite !feed_cons_fst. cbn [feed fst].
  destruct (speech_step _ _ _ H1) as (_ & _ & S1 & O1 & C1 & Z1 & _ & K1).
  set (s1 := after (process_frame self f1 e1)) in *.
  destruct K1 as (_ & D1 & T1); [rewrite Hsp, Hcp; lia | ].
  pose proof S1 as (_ & _ & X1 & F1 & _ & P1).
  rewrite <- (speech_frame_same self s1 f2 e2 F1) in H2.
  destruct (speech_step _ _ _ H2) as (_ & _ & S2 & O2 & C2 & Z2 & _ & K2).
  set (s2 := after (process_frame s1 f2 e2)) in *.
  destruct K2 as (_ & D2 & T2); [rewrite P1, Hsp, C1, Hcp; lia | ].
  pose proof S2 as (_ & _ & X2 & F2 & _ & P2).
  rewrite <- (silence_frame_same self s2 f3 e3 (eq_trans F2 F1)) in H3.
  split; [congruence | ]. split; [congruence | ]. split; [exact Z2 | ].
  assert (R : reset s2 = reset self).
  { apply reset_same.
    - exact (@same_settings_trans _ _ _ _ S1 S2).
    - congruence. }
  rewrite <- R, <- (eq_trans O2 O1).
  apply called_when_due with (started := started).
  - congruence.
  - exact H3.
  - congruence.
  - rewrite X2, X1, Hth. exact Hq.
Qed.

End Facts.

(** X4 on a detector that has heard three speech frames and three
    silence frames. *)
Lemma speaking_flags_agree_witness :
  speech_detected
    (apply_ops (init Conversation.BoundMethod Config.SAMPLE_RATE
                  Config.FRAME_DURATION_MS Config.SILENCE_THRESHOLD_SECONDS)
       Samples.silent_history) = true.
Proof.
  pose proof (@speaking_flags_agree Conversation.BoundMethod Config.SAMPLE_RATE
                Config.FRAME_DURATION_MS Config.SILENCE_THRESHOLD_SECONDS
                Samples.silent_history) as H.
  cbv zeta in H. apply (proj2 H). vm_compute. discriminate.
Defined.

(** X5 on the same detector: two speech frames, then a silence frame
    read at instant 11. *)
Lemma flicker_keeps_silence_timer_witness :
  process_frame
    (fst (feed (apply_ops (init Conversation.BoundMethod Config.SAMPLE_RATE
                             Config.FRAME_DURATION_MS
                             Config.SILENCE_THRESHOLD_SECONDS)
                  Samples.silent_history)
            [(Scenario.frame, Scenario.voiced); (Scenario.frame, Scenario.voiced)]))
    Scenario.frame (Scenario.quiet 11)
  = mkFrameResult
      (reset (apply_ops (init Conversation.BoundMethod Config.SAMPLE_RATE
                           Config.FRAME_DURATION_MS
                           Config.SILENCE_THRESHOLD_SECONDS)
                Samples.silent_history))
      false
      (on_silence_detected
         (apply_ops (init Conversation.BoundMethod Config.SAMPLE_RATE
                       Config.FRAME_DURATION_MS
                       Config.SILENCE_THRESHOLD_SECONDS)
            Samples.silent_history)).
Proof.
  pose proof (@flicker_keeps_silence_timer Conversation.BoundMethod
                Config.SAMPLE_RATE Config.FRAME_DURATION_MS
                Config.SILENCE_THRESHOLD_SECONDS Samples.silent_history 10%Q
                Scenario.frame Scenario.voiced Scenario.frame Scenario.voiced
                Scenario.frame (Scenario.quiet 11)) as H.
  cbv zeta in H.
  assert (H1 : silence_start
                 (apply_ops (init Conversation.BoundMethod Config.SAMPLE_RATE
                               Config.FRAME_DURATION_MS
                               Config.SILENCE_THRESHOLD_SECONDS)
                    Samples.silent_history) = Some 10%Q)
    by (vm_compute; reflexivity).
  assert (H2 : consecutive_speech
                 (apply_ops (init Conversation.BoundMethod Config.SAMPLE_RATE
                               Config.FRAME_DURATION_MS
                               Config.SILENCE_THRESHOLD_SECONDS)
                    Samples.silent_history) = 0%nat)
    by (vm_compute; reflexivity).
  assert (H3 : speech_frame
                 (apply_ops (init Conversation.BoundMethod Config.SAMPLE_RATE
                               Config.FRAME_DURATION_MS
                               Config.SILENCE_THRESHOLD_SECONDS)
                    Samples.silent_history)
                 Scenario.frame Scenario.voiced = true)
    by (vm_compute; reflexivity).
  assert (H4 : silence_frame
                 (apply_ops (init Conversation.BoundMethod Config.SAMPLE_RATE
                               Config.FRAME_DURATION_MS
                               Config.SILENCE_THRESHOLD_SECONDS)
                    Samples.silent_history)
                 Scenario.frame (Scenario.quiet 11) = true)
    by (vm_compute; reflexivity).
  assert (H5 : (Config.SILENCE_THRESHOLD_SECONDS
                <= clock_check (Scenario.quiet 11) - 10)%Q)
    by (vm_compute; discriminate).
  exact (proj2 (proj2 (proj2 (H H1 H2 H3 H3 H4 H5)))).
Defined.

End VadFlagFacts.

(* ===================================================================== *)
(** ** More properties of the conversation manager *)
(* ===================================================================== *)

Module SessionFacts.

Import Vad Conversation Scenario VadFacts ConversationFacts.

Local Open Scope string_scope.
Local Open Scope list_scope.

(** What the frame loop can change: the detector and the buffer of the
    manager, and the ready tasks. *)
Lemma vad_process_frame_self frame env w :
  self (vad_process_frame frame env w)
  = with_vad (after (process_frame (vad (self w)) frame env)) (self w)
  /\ ready (vad_process_frame frame env w)
     = ready w ++ repeat generate_and_send_response_created
                    (if wants_response (self w)
                     then fired (process_frame (vad (self w)) frame env)
                     else 0%nat)
  /\ waiting (vad_process_frame frame env w) = waiting w
  /\ sent (vad_process_frame frame env w) = sent w
  /\ calls (vad_process_frame frame env w) = calls w.
Proof.
  unfold vad_process_frame, fired.
  destruct (called (process_frame (vad (self w)) frame env)) as [[] | ].
  - unfold _on_silence_detected.
    change (Str.truthy _ && _ && _) with (wants_response (self w)).
    destruct (wants_response (self w)); cbn; rewrite ?app_nil_r; repeat split.
  - cbn. destruct (wants_response (self w)); rewrite app_nil_r; repeat split.
Qed.

Lemma with_envs_cons frames seen frame l :
  with_envs frames seen (frame :: l)
  = (frame, frames seen) :: with_envs frames (S seen) l.
Proof. reflexivity. Qed.

Lemma slice_at frame_size b :
  (0 < frame_size)%Z -> (frame_size <= len b)%Z ->
  slice_to frame_size b = firstn (Z.to_nat frame_size) b
  /\ slice_from frame_size b = skipn (Z.to_nat frame_size) b
  /\ len (slice_to frame_size b) = frame_size.
Proof.
  intros Hpos Hle. unfold slice_to, slice_from, slice_index.
  destruct (Z.ltb_spec frame_size 0) as [Hneg | _]; [lia | ].
  rewrite Z.min_l by lia. repeat split.
  unfold len in *. rewrite length_firstn. lia.
Qed.

Lemma drain_feeds fuel frame_size frames : forall seen w w',
  (0 < frame_size)%Z ->
  drain fuel frame_size frames seen w = Some w' ->
  exists l,
    Forall (fun frame => len frame = frame_size) l
    /\ List.concat l ++ audio_buffer (self w') = audio_buffer (self w)
    /\ (len (audio_buffer (self w')) < frame_size)%Z
    /\ self w'
       = with_audio_buffer (audio_buffer (self w'))
           (with_vad (fst (feed (vad (self w)) (with_envs frames seen l)))
              (self w))
    /\ ready w'
       = ready w ++ repeat generate_and_send_response_created
                      (if wants_response (self w)
                       then snd (feed (vad (self w)) (with_envs frames seen l))
                       else 0%nat)
    /\ waiting w' = waiting w /\ sent w' = sent w /\ calls w' = calls w.
Proof.
  induction fuel as [ | fuel IH]; intros seen w w' Hpos; cbn [drain].
  - destruct (Z.geb_spec (len (audio_buffer (self w))) frame_size) as [Hge | Hlt];
      [discriminate | ].
    intros [= <-]. exists []. cbn.
    repeat split; try assumption; try (constructor).
    + destruct w as [[] ? ? ? ?]; reflexivity.
    + destruct (wants_response (self w)); rewrite app_nil_r; reflexivity.
  - destruct (Z.geb_spec (len (audio_buffer (self w))) frame_size) as [Hge | Hlt].
    + intros D. apply IH in D; [ | exact Hpos].
      destruct D as (l & Hall & Hcat & Hrem & Hself & Hready & Hw & Hs & Hc).
      destruct (@slice_at frame_size (audio_buffer (self w)) Hpos Hge)
        as (Eto & Efrom & Elen).
      set (frame := slice_to frame_size (audio_buffer (self w))) in *.
      set (w1 := update (fun m => with_audio_buffer
                     (slice_from frame_size (audio_buffer m)) m) w) in *.
      destruct (vad_process_frame_self frame (frames seen) w1)
        as (Vs & Vr & Vw & Vsent & Vc).
      exists (frame :: l).
      split; [constructor; assumption | ].
      split.
      { cbn [List.concat]. rewrite <- app_assoc, Hcat, Vs.
        cbn [audio_buffer with_vad]. unfold w1.
        cbn [self update audio_buffer with_audio_buffer].
        rewrite Efrom, Eto. apply firstn_skipn. }
      split; [exact Hrem | ].
      rewrite with_envs_cons. cbn [feed].
      change (vad (self w1)) with (vad (self w)) in *.
      rewrite Vs in Hself, Hready. cbn [vad with_vad] in Hself, Hready.
      destruct (feed (after (process_frame (vad (self w)) frame (frames seen)))
                  (with_envs frames (S seen) l)) as [v n] eqn:F.
      cbn [fst snd] in *.
      split.
      { rewrite Hself. destruct w as [[] ? ? ? ?]; reflexivity. }
      split.
      { rewrite Hready, Vr.
        change (wants_response (with_vad _ (self w1)))
          with (wants_response (self w)).
        change (wants_response (self w1)) with (wants_response (self w)).
        change (ready w1) with (ready w).
        destruct (wants_response (self w)).
        - rewrite <- app_assoc, <- repeat_app. reflexivity.
        - cbn. rewrite !app_nil_r. reflexivity. }
      split; [rewrite Hw, Vw; reflexivity | ].
      split; [rewrite Hs, Vsent; reflexivity | rewrite Hc, Vc; reflexivity].
    + intros [= <-]. exists []. cbn.
      repeat split; try assumption; try (constructor).
      * destruct w as [[] ? ? ? ?]; reflexivity.
      * destruct (wants_response (self w)); rewrite app_nil_r; reflexivity.
Qed.

(** X6. In an active session that is listening, [process_audio_chunk]
    returns; the bytes buffered before and the chunk, in this order, are
    cut into frames of [frame_size] bytes, all of which are handed to
    the detector in order, and fewer than [frame_size] bytes stay in the
    buffer; besides the detector and the buffer the call changes
    nothing of the manager, sends nothing, passes the chunk to the
    recognizer, and creates one generation task per silence callback if
    [_on_silence_detected] held before the call, none otherwise. *)
Theorem audio_is_reassembled_into_frames audio_data env w :
  interview_active (self w) = true ->
  Utils.is_expired (chunk_now env) (timer (self w)) = false ->
  is_ai_speaking (self w) = false ->
  (0 < frame_size (vad (self w)))%Z ->
  exists l w',
    process_audio_chunk audio_data env w = Return w'
    /\ Forall (fun frame => len frame = frame_size (vad (self w))) l
    /\ List.concat l ++ audio_buffer (self w')
       = audio_buffer (self w) ++ audio_data
    /\ (len (audio_buffer (self w')) < frame_size (vad (self w)))%Z
    /\ self w'
       = with_audio_buffer (audio_buffer (self w'))
           (with_vad (fst (feed (vad (self w))
                             (with_envs (chunk_frames env) 0 l)))
              (self w))
    /\ ready w'
       = ready w ++ repeat generate_and_send_response_created
                      (if wants_response (self w)
                       then snd (feed (vad (self w))
                                   (with_envs (chunk_frames env) 0 l))
                       else 0%nat)
    /\ waiting w' = waiting w
    /\ sent w' = sent w
    /\ calls w' = calls w ++ [recognizer_send_audio audio_data].
Proof.
  intros Hact Hexp Hai Hpos.
  unfold process_audio_chunk. rewrite Hact, Hexp. cbn [negb call self].
  rewrite Hai.
  match goal with
  | |- context [drain ?f ?s ?fr ?n ?x] =>
      destruct (@drain_returns s fr f n x) as (w' & D);
        [exact Hpos | lia | ]
  end.
  cbn [vad update self with_audio_buffer] in D. cbn [vad update self with_audio_buffer].
  rewrite D.
  apply drain_feeds in D; [ | exact Hpos].
  destruct D as (l & Hall & Hcat & Hrem & Hself & Hready & Hw & Hs & Hc).
  exists l, w'. cbn in Hall, Hcat, Hrem, Hself, Hready, Hw, Hs, Hc.
  split; [reflexivity | ]. split; [exact Hall | ].
  split; [exact Hcat | ]. split; [exact Hrem | ].
  split; [rewrite Hself at 1; destruct w as [[] ? ? ? ?]; reflexivity | ].
  split; [exact Hready | ]. split; [exact Hw | ]. split; [exact Hs | exact Hc].
Qed.


(** X6 on the session that listens after the greeting and a chunk of
    seven frames. *)
Lemma audio_is_reassembled_into_frames_witness :
  exists l w',
    process_audio_chunk utterance (utterance_env 10) Samples.listening = Return w'
    /\ Forall (fun frame => len frame = frame_size (vad (self Samples.listening))) l
    /\ List.concat l ++ audio_buffer (self w')
       = audio_buffer (self Samples.listening) ++ utterance.
Proof.
  assert (H1 : interview_active (self Samples.listening) = true)
    by (vm_compute; reflexivity).
  assert (H2 : Utils.is_expired (chunk_now (utterance_env 10))
                 (timer (self Samples.listening)) = false)
    by (vm_compute; reflexivity).
  assert (H3 : is_ai_speaking (self Samples.listening) = false)
    by (vm_compute; reflexivity).
  assert (H4 : (0 < frame_size (vad (self Samples.listening)))%Z)
    by (vm_compute; reflexivity).
  destruct (@audio_is_reassembled_into_frames utterance (utterance_env 10)
              Samples.listening H1 H2 H3 H4)
    as (l & w' & R & F & C & _).
  exists l, w'. split; [exact R | split; [exact F | exact C]].
Defined.

Lemma feed_same_settings (Callable : Type) frames :
  forall self : VoiceActivityDetector Callable,
  same_settings self (fst (feed self frames)).
Proof.
  induction frames as [ | [frame env] rest IH]; intros self.
  - repeat split.
  - rewrite feed_cons_fst.
    eapply same_settings_trans; [apply process_frame_same_settings | apply IH].
Qed.

Lemma extends_refl {A : Type} (l : list A) : extends l l.
Proof. exists []. symmetry. apply app_nil_r. Qed.

Lemma extends_trans {A : Type} (l1 l2 l3 : list A) :
  extends l1 l2 -> extends l2 l3 -> extends l1 l3.
Proof.
  intros [m1 ->] [m2 ->]. exists (m1 ++ m2). symmetry. apply app_assoc.
Qed.

Lemma kept_refl w : kept w w.
Proof. split; [apply extends_refl | reflexivity]. Qed.

Lemma kept_trans w1 w2 w3 : kept w1 w2 -> kept w2 w3 -> kept w1 w3.
Proof.
  intros [E1 F1] [E2 F2]. split; [exact (extends_trans E1 E2) | congruence].
Qed.

Lemma drain_kept fuel frame_size frames seen w w' :
  drain fuel frame_size frames seen w = Some w' -> kept w w'.
Proof.
  intros D. destruct (Z.ltb_spec 0 frame_size) as [Hpos | Hneg].
  - apply drain_feeds in D; [ | exact Hpos].
    destruct D as (l & _ & _ & _ & Hself & _).
    unfold kept. rewrite Hself. split; cbn.
    + apply extends_refl.
    + apply (feed_same_settings (with_envs frames seen l) (vad (self w))).
  - rewrite (@drain_never_returns frame_size frames fuel seen w Hneg) in D.
    discriminate.
Qed.

Lemma end_interview_kept closing w w' :
  _end_interview closing w = Return w' \/ _end_interview closing w = Raise w' ->
  kept w w'.
Proof.
  unfold _end_interview. destruct (negb (interview_active (self w))).
  - intros [[= <-] | H]; [apply kept_refl | discriminate].
  - cbn. destruct (closing_audio closing).
    + intros [[= <-] | H]; [ | discriminate].
      destruct (websocket (self w)); split; cbn;
        first [apply extends_refl | reflexivity].
    + intros [H | [= <-]]; [discriminate | ].
      split; cbn; [apply extends_refl | reflexivity].
Qed.

Lemma run_task_kept t env w : kept w (run_task t env w).
Proof.
  destruct t; cbn [run_task].
  - unfold _generate_and_send_response.
    destruct (response_in_progress (self w)); [apply kept_refl | ]. cbn.
    assert (E : forall a b : Turn,
               extends (conversation_history (self w))
                 ((conversation_history (self w) ++ [a]) ++ [b])).
    { intros a b. exists [a; b]. rewrite <- app_assoc. reflexivity. }
    destruct (speech env); [ | split; cbn; [apply E | reflexivity]].
    destruct (websocket (self w)); [ | split; cbn; [apply E | reflexivity]].
    destruct (send_suspends env); split; cbn; first [apply E | reflexivity].
  - split; cbn; [apply extends_refl | reflexivity].
  - unfold _handle_interruption. cbn.
    destruct (websocket (self w)); [ | split; cbn; [apply extends_refl | reflexivity]].
    destruct (send_suspends env); split; cbn; first [apply extends_refl | reflexivity].
  - split; cbn; [apply extends_refl | reflexivity].
Qed.

Lemma step_kept e w w' :
  step e w = Return w' \/ step e w = Raise w' -> kept w w'.
Proof.
  destruct e as [audio_data env | msg_type | transcript | | env | n]; cbn [step].
  - unfold process_audio_chunk.
    destruct (negb (interview_active (self w))).
    { intros [[= <-] | H]; [apply kept_refl | discriminate]. }
    destruct (Utils.is_expired _ _); [apply end_interview_kept | ].
    cbn [call self]. destruct (is_ai_speaking (self w)).
    { intros [[= <-] | H]; [ | discriminate].
      split; cbn; [apply extends_refl | reflexivity]. }
    match goal with
    | |- context [drain ?f ?s ?fr ?n ?x] =>
        destruct (drain f s fr n x) as [w1 | ] eqn:D
    end.
    2:{ intros [H | H]; discriminate. }
    intros [[= <-] | H]; [ | discriminate].
    apply drain_kept in D.
    eapply kept_trans; [ | exact D].
    split; cbn; [apply extends_refl | reflexivity].
  - intros [[= <-] | H]; [ | discriminate]. unfold handle_websocket_message.
    destruct (msg_type =? "stop")%string;
      [split; cbn; [apply extends_refl | reflexivity] | ].
    destruct (msg_type =? "ai_audio_completed")%string;
      [split; cbn; [apply extends_refl | reflexivity] | apply kept_refl].
  - intros [[= <-] | H]; [ | discriminate]. unfold _on_transcript_received.
    destruct (Str.truthy transcript); [ | apply kept_refl].
    destruct (is_ai_speaking (self w)); split; cbn;
      first [apply extends_refl | reflexivity].
  - intros [[= <-] | H]; [ | discriminate].
    split; cbn; [apply extends_refl | reflexivity].
  - intros [[= <-] | H]; [ | discriminate]. unfold run_next.
    destruct (ready w) as [ | t rest]; [apply kept_refl | ].
    eapply kept_trans; [ | apply run_task_kept].
    split; cbn; [apply extends_refl | reflexivity].
  - intros [[= <-] | H]; [ | discriminate]. unfold wake.
    destruct (take_out n (waiting w)) as [[t rest] | ]; [ | apply kept_refl].
    split; cbn; [apply extends_refl | reflexivity].
Qed.

Lemma steps_kept es : forall w w',
  steps es w = Return w' \/ steps es w = Raise w' -> kept w w'.
Proof.
  induction es as [ | e es IH]; intros w w'; cbn [steps].
  - intros [[= <-] | H]; [apply kept_refl | discriminate].
  - destruct (step e w) as [w1 | w1 | ] eqn:S.
    + intros H.
      exact (kept_trans (@step_kept e w w1 (or_introl S)) (IH w1 w' H)).
    + intros [H | [= <-]]; [discriminate | ].
      exact (@step_kept e w w1 (or_intror S)).
    + intros [H | H]; discriminate.
Qed.

(** X7. No event removes or changes a turn of [conversation_history]:
    after any events the history begins with the history before
    them. *)
Theorem history_is_append_only es w w' :
  steps es w = Return w' \/ steps es w = Raise w' ->
  exists more,
    conversation_history (self w') = conversation_history (self w) ++ more.
Proof. intros H. apply (steps_kept es w H). Qed.

(** X7 on the started session: the candidate speaks and the generation
    task runs. *)
Lemma history_is_append_only_witness :
  exists more,
    conversation_history (self Samples.answered)
    = conversation_history (self started) ++ more.
Proof.
  apply (@history_is_append_only (spoken ++ [loop_runs_next answer]) started
           Samples.answered).
  left. vm_compute. reflexivity.
Defined.

Lemma step_ends e w :
  (0 < frame_size (vad (self w)))%Z -> step e w <> Diverge.
Proof.
  intros Hpos. destruct e; cbn [step]; try discriminate.
  apply process_audio_chunk_ends, Hpos.
Qed.

Lemma steps_end es : forall w,
  (0 < frame_size (vad (self w)))%Z -> steps es w <> Diverge.
Proof.
  induction es as [ | e es IH]; intros w Hpos; cbn [steps]; [discriminate | ].
  destruct (step e w) as [w1 | w1 | ] eqn:S.
  - apply IH. destruct (@step_kept e w w1 (or_introl S)) as [_ F]. rewrite F. exact Hpos.
  - discriminate.
  - exfalso. exact (step_ends e w Hpos S).
Qed.

(** X8. In a session that [start_interview] has started from the
    constructor, whether it returned or raised, every event is handled
    in finitely many steps: the loop of [process_audio_chunk] ends, the
    frame size being 960. *)
Theorem started_session_never_hangs candidate_name role env es w :
  fst (start_interview env (boot candidate_name role)) = Return w
  \/ fst (start_interview env (boot candidate_name role)) = Raise w ->
  steps es w <> Diverge.
Proof.
  intros H. apply steps_end.
  assert (F : frame_size (vad (self w)) = 960%Z).
  { revert H. unfold start_interview.
    destruct (greeting_text env); cbn [fst].
    - destruct (greeting_audio env); cbn [fst].
      + destruct (stream_opened env); cbn [fst];
          intros [[= <-] | [= <-]]; reflexivity.
      + intros [[= <-] | [= <-]]; reflexivity.
    - intros [[= <-] | [= <-]]; reflexivity. }
  rewrite F. lia.
Qed.


(** X8 on the started session and two utterances. *)
Lemma started_session_never_hangs_witness :
  steps spoken_twice started <> Diverge.
Proof.
  apply (@started_session_never_hangs "Ana" "Engineer" start_env spoken_twice
           started).
  left. reflexivity.
Defined.

(** X9. The first chunk that arrives in an active session after the
    timer has expired ends the interview instead of being processed:
    the session becomes inactive, the closing is generated and
    synthesized, one [interview_end] is sent if a websocket is attached
    and the recognizer is closed, or, when the synthesis raises, the
    exception leaves [process_audio_chunk] with nothing sent and the
    recognizer not closed; the chunk is not passed to the recognizer;
    every later chunk is ignored. *)
Theorem expired_timer_ends_interview audio_data env w :
  interview_active (self w) = true ->
  Utils.is_expired (chunk_now env) (timer (self w)) = true ->
  let ended := update (with_interview_active false) w in
  let text := closing_text (chunk_closing env) in
  let asked := calls w ++ [ai_generate_closing (candidate_name (self w));
                           synthesize text] in
  match closing_audio (chunk_closing env) with
  | Some closing_audio =>
      process_audio_chunk audio_data env w
      = Return (mkWorld (self ended) (ready w) (waiting w)
                  (if websocket (self w)
                   then sent w ++ [interview_end text
                                     (Utils.encode_audio_to_base64 closing_audio)]
                   else sent w)
                  (asked ++ [recognizer_close]))
  | None =>
      process_audio_chunk audio_data env w
      = Raise (mkWorld (self ended) (ready w) (waiting w) (sent w) asked)
  end
  /\ forall w' audio_data' env',
       process_audio_chunk audio_data env w = Return w'
       \/ process_audio_chunk audio_data env w = Raise w' ->
       process_audio_chunk audio_data' env' w' = Return w'.
Proof.
  intros Hact Hexp. cbv zeta.
  assert (E : process_audio_chunk audio_data env w
              = _end_interview (chunk_closing env) w).
  { unfold process_audio_chunk. rewrite Hact, Hexp. reflexivity. }
  rewrite E. unfold _end_interview. rewrite Hact. cbn [negb].
  destruct (closing_audio (chunk_closing env)) as [a | ].
  - split.
    + destruct (websocket (self w)) eqn:Hws;
        unfold call, send_json, update; cbn; rewrite ?Hws; cbn;
        repeat rewrite <- app_assoc; reflexivity.
    + intros w' audio_data' env' [[= <-] | H]; [ | discriminate].
      unfold process_audio_chunk.
      destruct (websocket (self w)); reflexivity.
  - split.
    + unfold call, update. cbn. repeat rewrite <- app_assoc. reflexivity.
    + intros w' audio_data' env' [H | [= <-]]; [discriminate | ].
      reflexivity.
Qed.

(** X9 on the started session and a chunk that arrives at instant
    600. *)
Lemma expired_timer_ends_interview_witness :
  process_audio_chunk utterance Samples.late_env started
  = Return
      (mkWorld (self (update (with_interview_active false) started))
         (ready started) (waiting started)
         (sent started
          ++ [interview_end (closing_text (chunk_closing Samples.late_env))
                (Utils.encode_audio_to_base64 [x04])])
         ((calls started
           ++ [ai_generate_closing (candidate_name (self started));
               synthesize (closing_text (chunk_closing Samples.late_env))])
          ++ [recognizer_close])).
Proof.
  assert (H1 : interview_active (self started) = true) by reflexivity.
  assert (H2 : Utils.is_expired (chunk_now Samples.late_env)
                 (timer (self started)) = true)
    by (vm_compute; reflexivity).
  pose proof (@expired_timer_ends_interview utterance Samples.late_env started
                H1 H2) as H.
  cbv zeta in H. exact (proj1 H).
Defined.

Lemma transcript_when_listening t w :
  is_ai_speaking (self w) = false ->
  _on_transcript_received t w
  = update (with_current_user_speech (heard (current_user_speech (self w)) [t])) w.
Proof.
  intros Hai. unfold _on_transcript_received, heard. cbn [fold_left].
  destruct (Str.truthy t).
  - rewrite Hai. reflexivity.
  - destruct w as [[] ? ? ? ?]; reflexivity.
Qed.

(** X10. While the system is not speaking, transcripts only grow the
    pending speech: each non-empty one is appended after a space, empty
    ones are dropped, and nothing else changes; no task is created and
    nothing is sent. *)
Theorem transcripts_accumulate transcripts : forall w,
  is_ai_speaking (self w) = false ->
  steps (map transcript_received transcripts) w
  = Return (update (with_current_user_speech
                      (heard (current_user_speech (self w)) transcripts)) w).
Proof.
  induction transcripts as [ | t rest IH]; intros w Hai.
  - cbn. destruct w as [[] ? ? ? ?]; reflexivity.
  - cbn [map steps step]. rewrite (transcript_when_listening t w Hai).
    rewrite IH by exact Hai. reflexivity.
Qed.

(** X10 on the listening session. *)
Lemma transcripts_accumulate_witness :
  steps (map transcript_received ["hello"; ""; "world"]) Samples.listening
  = Return (update (with_current_user_speech
                      (heard (current_user_speech (self Samples.listening))
                         ["hello"; ""; "world"])) Samples.listening).
Proof.
  apply transcripts_accumulate. vm_compute. reflexivity.
Defined.

(** X11 on the started session: two utterances, and the first
    generation task is suspended at its send. *)
Lemma at_most_one_in_flight_witness :
  (in_flight Samples.sending <= 1)%nat.
Proof.
  apply (@at_most_one_in_flight "Ana" "Engineer" start_env
           (spoken_twice ++ [loop_runs_next answer_suspending]) started
           Samples.sending).
  - reflexivity.
  - left. vm_compute. reflexivity.
Defined.

Ltac settle :=
  first
    [ reflexivity
    | discriminate
    | intros HH; discriminate HH
    | intros (T & A & O); congruence
    | intros (T & A); congruence
    | intros HH; cbn in HH; congruence
    | intros _; cbn; discriminate
    | intros _; eexists _, _; repeat apply conj; reflexivity
    | intros _; repeat apply conj; settle ].

(** X12. [start_interview] on a fresh manager: however it ends, the
    session is active, the websocket is attached, the timer runs from
    the instant read, and no task exists; it returns exactly when the
    greeting, its audio and the recognition stream all succeed, and
    then returns the greeting as an [ai_response], has recorded it as
    the only turn and takes the system to be speaking; when it raises,
    nothing is returned and the system is not taken to be speaking,
    and the greeting has been recorded as a turn exactly when only the
    recognition stream failed. *)
Theorem start_interview_from_constructor candidate_name role env w :
  let r := start_interview env (boot candidate_name role) in
  fst r = Return w \/ fst r = Raise w ->
  interview_active (self w) = true
  /\ websocket (self w) = true
  /\ Utils.start_time (timer (self w)) = Some (start_now env)
  /\ ready w = [] /\ waiting w = [] /\ sent w = []
  /\ (fst r = Return w
      <-> greeting_text env <> None /\ greeting_audio env <> None
          /\ stream_opened env = true)
  /\ (fst r = Return w ->
      exists text audio,
        greeting_text env = Some text /\ greeting_audio env = Some audio
        /\ snd r = Some (ai_response text (Utils.encode_audio_to_base64 audio))
        /\ conversation_history (self w) = [mkTurn interviewer text]
        /\ is_ai_speaking (self w) = true
        /\ calls w = [ai_start_interview candidate_name role; synthesize text;
                      recognizer_start_streaming])
  /\ (fst r = Raise w ->
      snd r = None
      /\ is_ai_speaking (self w) = false
      /\ (conversation_history (self w) <> []
          <-> greeting_text env <> None /\ greeting_audio env <> None)).
Proof.
  cbv zeta. unfold start_interview.
  destruct (greeting_text env) as [text | ];
    [destruct (greeting_audio env) as [audio | ];
       [destruct (stream_opened env) | ] | ];
    cbn [fst snd]; intros [H | H]; try discriminate H; injection H as <-;
    (repeat apply conj); settle.
Qed.

(** X12 on the started session. *)
Lemma start_interview_from_constructor_witness :
  interview_active (self started) = true /\ sent started = [].
Proof.
  pose proof (@start_interview_from_constructor "Ana" "Engineer" start_env
                started) as H.
  cbv zeta in H.
  destruct (H (or_introl eq_refl)) as (H1 & _ & _ & _ & _ & H6 & _).
  split; [exact H1 | exact H6].
Defined.

Lemma chunk_while_ai_speaking audio_data env w :
  interview_active (self w) = true ->
  Utils.is_expired (chunk_now env) (timer (self w)) = false ->
  is_ai_speaking (self w) = true ->
  process_audio_chunk audio_data env w
  = Return (call (recognizer_send_audio audio_data) w).
Proof.
  intros Hact Hexp Hai. unfold process_audio_chunk.
  rewrite Hact, Hexp. cbn [negb call self]. rewrite Hai. reflexivity.
Qed.

(** X13. When the synthesis of a reply raises, nothing is sent, yet
    both turns have been recorded, the pending speech is gone, and the
    manager is left taking the system to be speaking: the silence
    callback creates no task, and while the session is active and in
    time every chunk is passed to the recognizer only, without reaching
    the detector. *)
Theorem failed_synthesis_stops_listening env w :
  response_in_progress (self w) = false ->
  speech env = None ->
  let w' := _generate_and_send_response env w in
  let said := Str.strip (current_user_speech (self w)) in
  sent w' = sent w
  /\ ready w' = ready w /\ waiting w' = waiting w
  /\ conversation_history (self w')
     = conversation_history (self w)
       ++ [mkTurn candidate said; mkTurn interviewer (reply env)]
  /\ current_user_speech (self w') = EmptyString
  /\ response_in_progress (self w') = false
  /\ is_ai_speaking (self w') = true
  /\ _on_silence_detected w' = w'
  /\ forall audio_data chunk,
       interview_active (self w) = true ->
       Utils.is_expired (chunk_now chunk) (timer (self w)) = false ->
       process_audio_chunk audio_data chunk w'
       = Return (call (recognizer_send_audio audio_data) w').
Proof.
  intros Hrip Hsp. cbv zeta.
  unfold _generate_and_send_response. rewrite Hrip, Hsp. cbn.
  repeat split; try reflexivity.
  - rewrite <- app_assoc. reflexivity.
  - intros audio_data chunk Hact Hexp.
    apply chunk_while_ai_speaking; cbn; first [assumption | reflexivity].
Qed.

(** X13 on the listening session. *)
Lemma failed_synthesis_stops_listening_witness :
  sent (_generate_and_send_response synthesis_fails Samples.listening)
  = sent Samples.listening
  /\ is_ai_speaking
       (self (_generate_and_send_response synthesis_fails Samples.listening))
     = true.
Proof.
  assert (H1 : response_in_progress (self Samples.listening) = false)
    by (vm_compute; reflexivity).
  pose proof (@failed_synthesis_stops_listening synthesis_fails
                Samples.listening H1 eq_refl) as H.
  cbv zeta in H. destruct H as (S & _ & _ & _ & _ & _ & A & _).
  split; [exact S | exact A].
Defined.

(** X21. In an active session that is listening and in time,
    [process_audio_chunk] fails to return exactly when the frame size of
    the detector is not positive: the test of its loop then holds
    however often the body runs.  The constructor of the detector gives
    such a frame size exactly when [sample_rate * frame_duration_ms] is
    below 1000. *)
Theorem frame_loop_needs_positive_frame_size audio_data env w :
  interview_active (self w) = true ->
  Utils.is_expired (chunk_now env) (timer (self w)) = false ->
  is_ai_speaking (self w) = false ->
  (process_audio_chunk audio_data env w = Diverge
   <-> (frame_size (vad (self w)) <= 0)%Z)
  /\ ((frame_size (vad (self w)) <= 0)%Z ->
      forall fuel frames seen w1,
        drain fuel (frame_size (vad (self w))) frames seen w1 = None)
  /\ (forall sample_rate frame_duration_ms threshold,
        (frame_size (Vad.init BoundMethod sample_rate frame_duration_ms threshold)
         <= 0)%Z
        <-> (sample_rate * frame_duration_ms < 1000)%Z).
Proof.
  intros Hact Hexp Hai. split; [ | split].
  - split.
    + intros D. destruct (Z.ltb_spec 0 (frame_size (vad (self w)))) as [Hpos | Hneg];
        [ | exact Hneg].
      exfalso. exact (@process_audio_chunk_ends audio_data env w Hpos D).
    + intros Hneg. unfold process_audio_chunk. rewrite Hact, Hexp.
      cbn [negb call self]. rewrite Hai.
      rewrite drain_never_returns by exact Hneg. reflexivity.
  - intros Hneg fuel frames seen w1. apply drain_never_returns, Hneg.
  - intros sample_rate frame_duration_ms threshold. cbn [frame_size Vad.init].
    destruct (Z.ltb_spec (sample_rate * frame_duration_ms) 1000) as [Hlt | Hge].
    + split; [intros _; exact Hlt | intros _].
      destruct (Z.ltb_spec (sample_rate * frame_duration_ms) 0) as [Hn | Hp].
      * pose proof (Z.quot_opp_l (- (sample_rate * frame_duration_ms)) 1000) as Q.
        rewrite Z.opp_involutive in Q. rewrite Q by lia.
        pose proof (Z.quot_pos (- (sample_rate * frame_duration_ms)) 1000).
        lia.
      * rewrite Z.quot_small by lia. lia.
    + split; [intros H | lia].
      assert (1 <= Z.quot (sample_rate * frame_duration_ms) 1000)%Z.
      { rewrite Z.quot_div_nonneg by lia.
        apply Z.div_le_lower_bound; lia. }
      lia.
Qed.

(** X21 on a listening session whose detector was built for frames of
    no duration. *)
Lemma frame_loop_needs_positive_frame_size_witness :
  process_audio_chunk utterance (utterance_env 10) Samples.misconfigured
  = Diverge.
Proof.
  assert (H1 : interview_active (self Samples.misconfigured) = true)
    by (vm_compute; reflexivity).
  assert (H2 : Utils.is_expired (chunk_now (utterance_env 10))
                 (timer (self Samples.misconfigured)) = false)
    by (vm_compute; reflexivity).
  assert (H3 : is_ai_speaking (self Samples.misconfigured) = false)
    by (vm_compute; reflexivity).
  apply (proj1 (@frame_loop_needs_positive_frame_size utterance
                  (utterance_env 10) Samples.misconfigured H1 H2 H3)).
  vm_compute. discriminate.
Defined.

End SessionFacts.

(* ===================================================================== *)
(** ** Properties of the speech recognizer *)
(* ===================================================================== *)

Module SpeechRecognitionFacts.

Import SpeechRecognition.

Local Open Scope string_scope.
Local Open Scope list_scope.

Section Facts.

Variable Callable : Type.
Implicit Type self : SpeechRecognizer Callable.

Lemma retries_S a k :
  retries a (S k) = [live_called; slept (2 ^ Z.of_nat (S a))] ++ retries (S a) k.
Proof. reflexivity. Qed.

Lemma connect_established k : forall todo a outcome self log,
  (forall i, (a <= i < a + k)%nat -> outcome i <> established) ->
  outcome (a + k)%nat = established ->
  (k < todo)%nat ->
  connect todo a outcome self log
  = (mkRecognizer (Some (a + k)%nat) (transcript_callback self),
     log ++ retries a k ++ [live_called], (a + k)%nat).
Proof.
  induction k as [ | k IH]; intros todo a outcome self log Hfail Hok Hlt;
    (destruct todo as [ | todo]; [lia | ]); cbn [connect].
  - rewrite Nat.add_0_r in *. rewrite Hok. reflexivity.
  - assert (Ha : outcome a <> established) by (apply Hfail; lia).
    replace (a + S k)%nat with (S a + k)%nat in * by lia.
    rewrite retries_S.
    destruct (outcome a) eqn:E; [contradiction | | ].
    + rewrite (IH todo (S a) outcome self); [ | intros i Hi; apply Hfail; lia | exact Hok | lia].
      cbn. rewrite <- !app_assoc. reflexivity.
    + rewrite (IH todo (S a) outcome); [ | intros i Hi; apply Hfail; lia | exact Hok | lia].
      cbn. rewrite <- !app_assoc. reflexivity.
Qed.

Lemma connect_exhausted todo : forall a outcome self log,
  (forall i, (a <= i < a + todo)%nat -> outcome i <> established) ->
  exists c,
    connect todo a outcome self log
    = (mkRecognizer c (transcript_callback self), log ++ retries a todo,
       (a + todo)%nat).
Proof.
  induction todo as [ | todo IH]; intros a outcome self log Hfail; cbn [connect].
  - exists (connection self). rewrite Nat.add_0_r. cbn. rewrite app_nil_r.
    destruct self; reflexivity.
  - assert (Ha : outcome a <> established) by (apply Hfail; lia).
    replace (a + S todo)%nat with (S a + todo)%nat by lia.
    rewrite retries_S.
    destruct (outcome a) eqn:E; [contradiction | | ].
    + destruct (IH (S a) outcome self
                  ((log ++ [live_called]) ++ [slept (2 ^ Z.of_nat (S a))]))
        as (c & ->); [intros i Hi; apply Hfail; lia | ].
      exists c. cbn. rewrite <- !app_assoc. reflexivity.
    + destruct (IH (S a) outcome
                  (mkRecognizer (Some a) (transcript_callback self))
                  ((log ++ [live_called]) ++ [slept (2 ^ Z.of_nat (S a))]))
        as (c & ->); [intros i Hi; apply Hfail; lia | ].
      exists c. cbn. rewrite <- !app_assoc. reflexivity.
Qed.

Lemma total_sleep_app (l1 l2 : list Effect) :
  total_sleep (l1 ++ l2) = (total_sleep l1 + total_sleep l2)%Z.
Proof.
  induction l1 as [ | e l1 IH]; [reflexivity | ].
  destruct e; cbn; rewrite IH; lia.
Qed.

Lemma total_sleep_retries k : forall a,
  total_sleep (retries a k) = (2 ^ Z.of_nat (a + k + 1) - 2 ^ Z.of_nat (a + 1))%Z.
Proof.
  induction k as [ | k IH]; intros a.
  - cbn. rewrite Nat.add_0_r. lia.
  - rewrite retries_S, total_sleep_app, IH.
    cbn [total_sleep app].
    replace (S a + k + 1)%nat with (a + S k + 1)%nat by lia.
    replace (Z.of_nat (S a + 1)) with (Z.of_nat (S a) + 1)%Z by lia.
    replace (Z.of_nat (a + 1)) with (Z.of_nat (S a)) by lia.
    rewrite Z.pow_add_r by lia. lia.
Qed.

Lemma count_live_retries k : forall a,
  List.length (filter is_live (retries a k)) = k.
Proof.
  induction k as [ | k IH]; intros a; [reflexivity | ].
  rewrite retries_S, filter_app, length_app, IH. reflexivity.
Qed.

Lemma first_established (outcome : nat -> Attempt) n :
  (exists i, (i < n)%nat /\ outcome i = established) ->
  exists k, (k < n)%nat /\ outcome k = established
            /\ forall j, (j < k)%nat -> outcome j <> established.
Proof.
  induction n as [ | n IH]; intros (i & Hi & Hest); [lia | ].
  assert (D : (exists i', (i' < n)%nat /\ outcome i' = established)
              \/ forall j, (j < n)%nat -> outcome j <> established).
  { clear. induction n as [ | n IH].
    - right. intros j Hj. lia.
    - destruct IH as [(i' & Hi' & He) | Hnone].
      + left. exists i'. split; [lia | exact He].
      + destruct (outcome n) eqn:E.
        * left. exists n. split; [lia | exact E].
        * right. intros j Hj. destruct (Nat.eq_dec j n) as [-> | Hne];
            [congruence | apply Hnone; lia].
        * right. intros j Hj. destruct (Nat.eq_dec j n) as [-> | Hne];
            [congruence | apply Hnone; lia]. }
  destruct D as [Hsome | Hnone].
  - destruct (IH Hsome) as (k & Hk & Hke & Hkf).
    exists k. split; [lia | split; assumption].
  - assert (i = n).
    { destruct (Nat.eq_dec i n) as [E | Hne]; [exact E | ].
      exfalso. apply (Hnone i); [lia | exact Hest]. }
    subst i. exists n. split; [lia | split; assumption].
Qed.

Lemma start_streaming_established on_transcript outcome self log k :
  (k < max_reconnect_attempts)%nat ->
  (forall i, (i < k)%nat -> outcome i <> established) ->
  outcome k = established ->
  start_streaming on_transcript outcome self log
  = (mkRecognizer (Some k) (Some on_transcript),
     log ++ retries 0 k ++ [live_called], true).
Proof.
  intros Hk Hfail Hok. unfold start_streaming.
  rewrite (@connect_established k max_reconnect_attempts 0%nat outcome
             (mkRecognizer (connection self) (Some on_transcript)) log);
    [ | intros i Hi; apply Hfail; lia | exact Hok | exact Hk].
  cbn [Nat.add transcript_callback].
  destruct (Nat.eqb_spec k max_reconnect_attempts); [lia | reflexivity].
Qed.

Lemma start_streaming_exhausted on_transcript outcome self log :
  (forall i, (i < max_reconnect_attempts)%nat -> outcome i <> established) ->
  exists c,
    start_streaming on_transcript outcome self log
    = (mkRecognizer c (Some on_transcript),
       log ++ retries 0 max_reconnect_attempts, false).
Proof.
  intros Hfail. unfold start_streaming.
  destruct (@connect_exhausted max_reconnect_attempts 0%nat outcome
              (mkRecognizer (connection self) (Some on_transcript)) log)
    as (c & ->); [intros i Hi; apply Hfail; lia | ].
  exists c. reflexivity.
Qed.

(** X14. When the first attempt that succeeds is attempt [k] (counted
    from 0, [k < 5]), [start_streaming] returns with the connection of
    that attempt and the callback registered, after [k + 1] calls of
    [live] and a sleep of 2, 4, ... seconds after each failed one,
    [2 ^ (k + 1) - 2] seconds in all. *)
Theorem start_streaming_backs_off on_transcript outcome self log k :
  (k < max_reconnect_attempts)%nat ->
  (forall i, (i < k)%nat -> outcome i <> established) ->
  outcome k = established ->
  start_streaming on_transcript outcome self log
  = (mkRecognizer (Some k) (Some on_transcript),
     log ++ retries 0 k ++ [live_called], true)
  /\ total_sleep (retries 0 k) = (2 ^ Z.of_nat (k + 1) - 2)%Z
  /\ List.length (filter is_live (retries 0 k ++ [live_called])) = S k.
Proof.
  intros Hk Hfail Hok. split; [ | split].
  - apply start_streaming_established; assumption.
  - rewrite total_sleep_retries. cbn. reflexivity.
  - rewrite filter_app, length_app, count_live_retries. cbn. lia.
Qed.

(** X15. [start_streaming] raises exactly when each of the five
    attempts fails; it has then called [live] five times and slept 62
    seconds, the last 32 of them after the last failure, before
    raising. *)
Theorem start_streaming_gives_up on_transcript outcome self log :
  (snd (start_streaming on_transcript outcome self log) = false
   <-> forall i, (i < max_reconnect_attempts)%nat -> outcome i <> established)
  /\ ((forall i, (i < max_reconnect_attempts)%nat -> outcome i <> established) ->
      exists c,
        start_streaming on_transcript outcome self log
        = (mkRecognizer c (Some on_transcript),
           log ++ retries 0 max_reconnect_attempts, false))
  /\ total_sleep (retries 0 max_reconnect_attempts) = 62%Z
  /\ List.length (filter is_live (retries 0 max_reconnect_attempts)) = 5%nat
  /\ last (retries 0 max_reconnect_attempts) live_called = slept 32.
Proof.
  split; [ | split; [apply start_streaming_exhausted | repeat split]].
  split.
  - intros Hraise i Hi Hest.
    destruct (@first_established outcome max_reconnect_attempts)
      as (k & Hk & Hke & Hkf); [exists i; split; assumption | ].
    rewrite (@start_streaming_established on_transcript outcome self log k
               Hk Hkf Hke) in Hraise.
    discriminate.
  - intros Hfail.
    destruct (@start_streaming_exhausted on_transcript outcome self log Hfail)
      as (c & ->).
    reflexivity.
Qed.

(** X16. [_on_message] calls the transcript callback, with [t],
    exactly when a callback is registered, the message is a dictionary
    (or text that decodes to one) whose "channel" is a dictionary whose
    "alternatives" is a list that begins with a dictionary whose
    "transcript" is [t], and [t] is truthy; in every other case the
    callback is not called. *)
Theorem on_message_forwards_first_transcript message self t :
  _on_message message self = Some t
  <-> truthy t = true
      /\ transcript_callback self <> None
      /\ exists entries channel first rest,
           (message = structured (VDict entries)
            \/ message = encoded (Some (VDict entries)))
           /\ lookup "channel" entries = Some (VDict channel)
           /\ lookup "alternatives" channel = Some (VList (VDict first :: rest))
           /\ lookup "transcript" first = Some t.
Proof.
  split.
  - unfold _on_message.
    destruct (match message with structured d => Some d | encoded d => d end)
      as [data | ] eqn:Em; [ | discriminate].
    destruct data as [ | | | | | entries]; try discriminate. cbn [get].
    destruct (lookup "channel" entries) as [c | ] eqn:Ec.
    2:{ cbn. discriminate. }
    destruct (truthy c) eqn:Tc.
    2:{ cbn. discriminate. }
    destruct c as [ | | | | | channel]; try discriminate. cbn [get].
    destruct (lookup "alternatives" channel) as [a | ] eqn:Ea.
    2:{ cbn. discriminate. }
    destruct (truthy a) eqn:Ta.
    2:{ cbn. discriminate. }
    rewrite Ta. cbn [negb].
    destruct a as [ | | | | items | ]; try discriminate.
    destruct items as [ | first rest]; [discriminate | ].
    destruct first as [ | | | | | first]; try discriminate. cbn [get].
    destruct (lookup "transcript" first) as [t' | ] eqn:Et.
    2:{ cbn. discriminate. }
    destruct (truthy t') eqn:Tt; [ | discriminate].
    destruct (transcript_callback self) as [cb | ] eqn:Ecb; [ | discriminate].
    cbn. intros [= <-].
    split; [exact Tt | split; [discriminate | ]].
    exists entries, channel, first, rest.
    split.
    + destruct message as [d | [d | ]]; cbn in Em;
        [left | right | discriminate]; congruence.
    + repeat split; assumption.
  - intros (Tt & Hcb & entries & channel & first & rest & Hm & Ec & Ea & Et).
    assert (Em : match message with structured d => Some d | encoded d => d end
                 = Some (VDict entries))
      by (destruct Hm as [-> | ->]; reflexivity).
    unfold _on_message. rewrite Em. cbn [get]. rewrite Ec.
    assert (Tc : truthy (VDict channel) = true)
      by (destruct channel; [discriminate | reflexivity]).
    rewrite Tc. cbn [get]. rewrite Ea. cbn [truthy negb get]. rewrite Et, Tt.
    destruct (transcript_callback self); [reflexivity | contradiction].
Qed.

(** X17. A recognizer that has not been started sends no audio and
    closes nothing; once [start_streaming] has returned, audio goes to
    the connection it made, and [close] does not detach that
    connection: audio sent after [close] still goes to it. *)
Theorem audio_needs_a_connection on_transcript outcome log k audio_data :
  (k < max_reconnect_attempts)%nat ->
  (forall i, (i < k)%nat -> outcome i <> established) ->
  outcome k = established ->
  let fresh := init Callable in
  let streaming := fst (fst (start_streaming on_transcript outcome fresh [])) in
  send_audio audio_data fresh log = log
  /\ close fresh log = log
  /\ send_audio audio_data streaming log = log ++ [connection_send k audio_data]
  /\ send_audio audio_data streaming (close streaming log)
     = log ++ [connection_finish k; connection_send k audio_data].
Proof.
  intros Hk Hfail Hok. cbv zeta.
  rewrite (@start_streaming_established on_transcript outcome (init Callable)
             [] k Hk Hfail Hok).
  cbn. rewrite <- app_assoc. repeat split.
Qed.

End Facts.

(** X14 on a service that answers at the third attempt. *)
Lemma start_streaming_backs_off_witness :
  start_streaming Samples.on_transcript_received_method Samples.third_time
    (init Samples.Method) []
  = (mkRecognizer (Some 2%nat) (Some Samples.on_transcript_received_method),
     [] ++ retries 0 2 ++ [live_called], true).
Proof.
  refine (proj1 (@start_streaming_backs_off Samples.Method
                   Samples.on_transcript_received_method Samples.third_time
                   (init Samples.Method) [] 2%nat _ _ _)).
  - unfold max_reconnect_attempts. lia.
  - intros [ | [ | i]] Hi; [discriminate | discriminate | lia].
  - reflexivity.
Defined.

(** X15 on a service that never answers. *)
Lemma start_streaming_gives_up_witness :
  snd (start_streaming Samples.on_transcript_received_method Samples.never
         (init Samples.Method) []) = false.
Proof.
  apply (proj1 (@start_streaming_gives_up Samples.Method
                  Samples.on_transcript_received_method Samples.never
                  (init Samples.Method) [])).
  intros i _. discriminate.
Defined.

(** X16 on a message that carries the transcript "hello". *)
Lemma on_message_forwards_first_transcript_witness :
  _on_message Samples.hello_message
    (mkRecognizer None (Some Samples.on_transcript_received_method))
  = Some (VStr "hello").
Proof.
  apply (proj2 (@on_message_forwards_first_transcript Samples.Method
                  Samples.hello_message
                  (mkRecognizer None (Some Samples.on_transcript_received_method))
                  (VStr "hello"))).
  split; [reflexivity | ]. split; [discriminate | ].
  eexists _, _, _, _. split; [left; reflexivity | ].
  split; [reflexivity | ]. split; reflexivity.
Defined.

(** X17 on a service that answers at the third attempt. *)
Lemma audio_needs_a_connection_witness :
  send_audio [x01] (init Samples.Method) [] = []
  /\ send_audio [x01]
       (fst (fst (start_streaming Samples.on_transcript_received_method
                    Samples.third_time (init Samples.Method) []))) []
     = [] ++ [connection_send 2 [x01]].
Proof.
  pose proof (@audio_needs_a_connection Samples.Method
                Samples.on_transcript_received_method Samples.third_time
                [] 2%nat [x01]) as H.
  cbv zeta in H.
  destruct H as (H1 & _ & H3 & _).
  - unfold max_reconnect_attempts. lia.
  - intros [ | [ | i]] Hi; [discriminate | discriminate | lia].
  - reflexivity.
  - split; [exact H1 | exact H3].
Defined.

End SpeechRecognitionFacts.

(* ===================================================================== *)
(** ** Properties of the interviewer *)
(* ===================================================================== *)

Module TextGenerationFacts.

Import TextGeneration.

Local Open Scope string_scope.
Local Open Scope list_scope.

Lemma or_else_truthy s default :
  Str.truthy default = true -> Str.truthy (or_else s default) = true.
Proof. unfold or_else. destruct (Str.truthy s) eqn:E; congruence. Qed.

Lemma joined_truthy (l : list string) :
  l <> [] -> l <> [""] -> Str.truthy (String.concat ", " l) = true.
Proof.
  destruct l as [ | x [ | y rest]]; intros Hnil Hone.
  - contradiction.
  - destruct x; [contradiction | reflexivity].
  - cbn [String.concat]. destruct x; reflexivity.
Qed.

(** X18. The two resume texts of the system prompt are never empty.
    A missing skills list, an empty one, and one that holds nothing but
    one empty string give "various skills"; every other list gives its
    entries joined with ", ", so two empty strings give ", ".  Of the
    projects only the first two are used. *)
Theorem resume_texts_are_never_empty resume_data :
  Str.truthy (skills_text resume_data) = true
  /\ Str.truthy (projects_text resume_data) = true
  /\ (forall l,
        skills resume_data = Some l ->
        l <> [] -> l <> [""] ->
        skills_text resume_data = String.concat ", " l)
  /\ (skills resume_data = None \/ skills resume_data = Some []
      \/ skills resume_data = Some [""] ->
      skills_text resume_data = "various skills")
  /\ (forall p1 p2 rest,
        projects resume_data = Some (p1 :: p2 :: rest) ->
        projects_text resume_data
        = projects_text (mkResumeData (skills resume_data) (Some [p1; p2]))).
Proof.
  repeat apply conj.
  - apply or_else_truthy. reflexivity.
  - apply or_else_truthy. reflexivity.
  - intros l Hl Hnil Hone. unfold skills_text, or_else. rewrite Hl. cbn [get].
    rewrite (joined_truthy Hnil Hone). reflexivity.
  - intros [H | [H | H]]; unfold skills_text; rewrite H; reflexivity.
  - intros p1 p2 rest H. unfold projects_text. rewrite H. reflexivity.
Qed.

(** X18 on a resume with two skills, and on one whose two skills are
    empty strings. *)
Lemma resume_texts_are_never_empty_witness :
  skills_text Samples.resume = String.concat ", " ["Python"; "SQL"]
  /\ skills_text (mkResumeData (Some [""; ""]) None) = String.concat ", " [""; ""].
Proof.
  split.
  - destruct (resume_texts_are_never_empty Samples.resume) as (_ & _ & H & _).
    apply H; [reflexivity | discriminate | discriminate].
  - destruct (resume_texts_are_never_empty (mkResumeData (Some [""; ""]) None))
      as (_ & _ & H & _).
    apply H; [reflexivity | discriminate | discriminate].
Defined.

Lemma unanswered_app_user l x :
  unanswered (l ++ [mkMessage user x]) = S (unanswered l).
Proof.
  induction l as [ | m rest IH]; [reflexivity | ].
  cbn [app unanswered]. rewrite IH.
  destruct rest as [ | next rest']; cbn [app].
  - destruct (role m); cbn; lia.
  - destruct (role m); cbn; lia.
Qed.

Lemma unanswered_app_answered l x y :
  unanswered (l ++ [mkMessage user x; mkMessage assistant y]) = unanswered l.
Proof.
  induction l as [ | m rest IH]; [reflexivity | ].
  cbn [app unanswered]. rewrite IH.
  destruct rest as [ | next rest']; cbn [app].
  - destruct (role m); cbn; lia.
  - destruct (role m); cbn; lia.
Qed.

Lemma serve_unanswered self r :
  unanswered (messages (serve self r))
  = (unanswered (messages self) + failed r)%nat.
Proof.
  destruct r as [t [a | ] | n [a | ]];
    cbn [serve generate_response generate_closing append messages fst failed].
  - rewrite <- app_assoc. cbn [app]. rewrite unanswered_app_answered. lia.
  - rewrite unanswered_app_user. lia.
  - rewrite <- app_assoc. cbn [app]. rewrite unanswered_app_answered. lia.
  - rewrite unanswered_app_user. lia.
Qed.

(** X19. [generate_response] and [generate_closing] only append to
    [messages], and a request whose completion raises leaves its user
    message in [messages] without an answer: after any requests the
    number of unanswered user messages has grown by the number of
    failed completions, and all of them are sent along with every later
    request. *)
Theorem failed_completions_stay_unanswered rs : forall self,
  unanswered (messages (fold_left serve rs self))
  = (unanswered (messages self) + failures rs)%nat
  /\ exists more,
       messages (fold_left serve rs self) = messages self ++ more.
Proof.
  induction rs as [ | r rs IH]; intros self.
  - cbn. split; [lia | exists []; symmetry; apply app_nil_r].
  - cbn [fold_left].
    change (failures (r :: rs)) with (failed r + failures rs)%nat.
    destruct (IH (serve self r)) as (Hu & more & Hm).
    split.
    + rewrite Hu, serve_unanswered. lia.
    + rewrite Hm.
      destruct r as [t [a | ] | n [a | ]];
        cbn [serve generate_response generate_closing append messages fst];
        eexists; rewrite <- ?app_assoc; reflexivity.
Qed.



End TextGenerationFacts.
